(** * Embedding of the packagegraph collectors

    A shallow embedding of [packagegraph/collector.py],
    [packagegraph/debian_collector.py] and [packagegraph/rpm_collector.py],
    with [packagegraph/checker.py] and the cross-reference test of
    [main.py].

    Python [str] values are modelled as Rocq [string]s.  The character
    classes of Python ([str.isspace], the regex class [\w], [str.lower],
    [str.splitlines]) are written out for ASCII text; [urllib.parse.quote]
    works on the UTF-8 bytes of its argument and is modelled byte-wise.
    The rdflib graph is a list of triples with set insertion; the HTTP
    client, gzip and the XML parser are external collaborators, whose
    results are inputs of the model. *)

From Stdlib Require Import Ascii.
From stdpp Require Import base list strings gmap pretty.

Open Scope list_scope.

(* ------------------------------------------------------------------ *)
(** ** Python string primitives (ASCII) *)

Module Py.

Definition code (c : ascii) : nat := nat_of_ascii c.

(** [str.isspace] on one character: [\t \n \v \f \r], [\x1c]-[\x1f], space. *)
Definition is_space (c : ascii) : bool :=
  let n := code c in ((9 <=? n) && (n <=? 13)) || ((28 <=? n) && (n <=? 32)).

Definition is_alnum (c : ascii) : bool :=
  let n := code c in
  ((48 <=? n) && (n <=? 57)) || ((65 <=? n) && (n <=? 90))
  || ((97 <=? n) && (n <=? 122)).

(** The regex class [\w]. *)
Definition is_word (c : ascii) : bool := is_alnum c || (code c =? 95).

Definition chr (n : nat) : ascii := ascii_of_nat n.

Definition ch_eqb (c d : ascii) : bool := Ascii.eqb c d.

Fixpoint lstrip (s : string) : string :=
  match s with
  | EmptyString => EmptyString
  | String c s' => if is_space c then lstrip s' else s
  end.

Definition srev (s : string) : string :=
  String.string_of_list_ascii (rev (String.list_ascii_of_string s)).

(** [str.strip()] *)
Definition strip (s : string) : string := srev (lstrip (srev (lstrip s))).

(** [str.split(c)] for a one-character separator: never empty. *)
Fixpoint split_on (sep : ascii) (s : string) : list string :=
  match s with
  | EmptyString => [EmptyString]
  | String c s' =>
      if ch_eqb c sep then EmptyString :: split_on sep s'
      else match split_on sep s' with
           | r :: rs => String c r :: rs
           | [] => [String c EmptyString]
           end
  end.

(** [str.split('\n\n')] *)
Fixpoint split_blank_line (s : string) : list string :=
  match s with
  | EmptyString => [EmptyString]
  | String c r =>
      let cons_c l := match l with
                      | x :: xs => String c x :: xs
                      | [] => [String c EmptyString]
                      end in
      if ch_eqb c (chr 10) then
        match r with
        | String c2 r2 =>
            if ch_eqb c2 (chr 10) then EmptyString :: split_blank_line r2
            else cons_c (split_blank_line r)
        | EmptyString => cons_c (split_blank_line r)
        end
      else cons_c (split_blank_line r)
  end.

(** [str.split()]: runs of whitespace separate fields, no empty field. *)
Fixpoint split_ws_aux (cur : string) (s : string) : list string :=
  match s with
  | EmptyString => match cur with EmptyString => [] | _ => [srev cur] end
  | String c s' =>
      if is_space c then
        match cur with
        | EmptyString => split_ws_aux EmptyString s'
        | _ => srev cur :: split_ws_aux EmptyString s'
        end
      else split_ws_aux (String c cur) s'
  end.

Definition split_ws (s : string) : list string := split_ws_aux EmptyString s.

(** [str.splitlines()]: boundaries [\n], [\r], [\r\n], [\v], [\f],
    [\x1c], [\x1d], [\x1e]; no trailing empty line. *)
Definition is_line_break (c : ascii) : bool :=
  let n := code c in ((10 <=? n) && (n <=? 13)) || ((28 <=? n) && (n <=? 30)).

Fixpoint splitlines_aux (cur : string) (s : string) : list string :=
  match s with
  | EmptyString => match cur with EmptyString => [] | _ => [srev cur] end
  | String c s' =>
      if is_line_break c then
        if ch_eqb c (chr 13) then
          match s' with
          | String c2 s2 =>
              if ch_eqb c2 (chr 10) then srev cur :: splitlines_aux EmptyString s2
              else srev cur :: splitlines_aux EmptyString s'
          | EmptyString => [srev cur]
          end
        else srev cur :: splitlines_aux EmptyString s'
      else splitlines_aux (String c cur) s'
  end.

Definition splitlines (s : string) : list string := splitlines_aux EmptyString s.

(** [str.lower()] *)
Definition lower_char (c : ascii) : ascii :=
  let n := code c in if (65 <=? n) && (n <=? 90) then chr (n + 32) else c.

Fixpoint lower (s : string) : string :=
  match s with
  | EmptyString => EmptyString
  | String c s' => String (lower_char c) (lower s')
  end.

(** [str.replace('-', '')] *)
Fixpoint remove_dash (s : string) : string :=
  match s with
  | EmptyString => EmptyString
  | String c s' => if ch_eqb c "-"%char then remove_dash s' else String c (remove_dash s')
  end.

(** [str.startswith] *)
Definition startswith (s pre : string) : bool := String.prefix pre s.

(** [lst[-1]] on a non-empty list; [split_on] never returns []. *)
Definition last_or (d : string) (l : list string) : string := List.last l d.

(** [urllib.parse.quote(s)] with the default [safe='/']: the always-safe
    bytes [A-Za-z0-9_.-~] and [/] are kept, every other byte becomes
    [%XX] with upper-case hex digits. *)
Definition quote_safe (c : ascii) : bool :=
  is_alnum c || ch_eqb c "_"%char || ch_eqb c "."%char || ch_eqb c "-"%char
  || ch_eqb c "~"%char || ch_eqb c "/"%char.

Definition hex_digit (n : nat) : ascii :=
  if n <? 10 then chr (48 + n) else chr (55 + n).

Fixpoint quote (s : string) : string :=
  match s with
  | EmptyString => EmptyString
  | String c s' =>
      if quote_safe c then String c (quote s')
      else String "%"%char (String (hex_digit (code c / 16))
                              (String (hex_digit (code c mod 16)) (quote s')))
  end.

End Py.

(* ------------------------------------------------------------------ *)
(** ** Dependency grammar: [DebianCollector._parse_dependency_string]

    [dep_pattern = re.compile(r'([\w.-]+)(?:\s+\(([^)]+)\))?')] used with
    [re.match]: anchored at the start, not at the end.  Each quantifier
    is greedy and, by the shape of the pattern, never needs to backtrack:
    group 1 is the longest prefix of [\w.-] characters (at least one);
    the optional group then needs at least one whitespace character, a
    [(], the longest run of non-[)] characters (at least one) and a [)];
    when it does not match, group 2 is [None]. *)

Module Dep.
Import Py.

Definition is_name_char (c : ascii) : bool :=
  is_word c || ch_eqb c "."%char || ch_eqb c "-"%char.

(** Longest prefix satisfying [p], and the rest. *)
Fixpoint span (p : ascii -> bool) (s : string) : string * string :=
  match s with
  | EmptyString => (EmptyString, EmptyString)
  | String c s' =>
      if p c then let '(a, b) := span p s' in (String c a, b)
      else (EmptyString, s)
  end.

Definition not_rparen (c : ascii) : bool := negb (ch_eqb c ")"%char).

(** [(?:\s+\(([^)]+)\))?] on the text after group 1. *)
Definition match_constraint (rest : string) : option string :=
  match span is_space rest with
  | (EmptyString, _) => None
  | (_, String lp r1) =>
      if ch_eqb lp "("%char then
        match span not_rparen r1 with
        | (EmptyString, _) => None
        | (c, String rp _) => if ch_eqb rp ")"%char then Some c else None
        | (_, EmptyString) => None
        end
      else None
  | (_, EmptyString) => None
  end.

(** [dep_pattern.match(s)]: [None] or [Some (group(1), group(2))]. *)
Definition dep_match (s : string) : option (string * option string) :=
  match span is_name_char s with
  | (EmptyString, _) => None
  | (name, rest) => Some (name, match_constraint rest)
  end.

(** [alternatives[0]]: an [IndexError] when the list is empty. *)
Definition first_alternative (part : string) : option string :=
  List.head (map strip (split_on "|"%char part)).

(** The parser, with [None] standing for a raised exception. *)
Fixpoint parse_parts (parts : list string)
  : option (list (string * option string)) :=
  match parts with
  | [] => Some []
  | part :: rest =>
      match first_alternative part with
      | None => None
      | Some first =>
          match parse_parts rest with
          | None => None
          | Some deps =>
              match dep_match first with
              | Some m => Some (m :: deps)
              | None => Some deps
              end
          end
      end
  end.

Definition _parse_dependency_string (dep_string : string)
  : option (list (string * option string)) :=
  parse_parts (split_on ","%char dep_string).

End Dep.

Example parse_ex1 :
  Dep._parse_dependency_string "a (>= 1.0) | b, c"
  = Some [("a", Some ">= 1.0"); ("c", None)].
Proof. vm_compute. reflexivity. Qed.

Example parse_ex2 : Dep._parse_dependency_string "" = Some [].
Proof. vm_compute. reflexivity. Qed.

Example parse_ex3 : Dep._parse_dependency_string "pkgname" = Some [("pkgname", None)].
Proof. vm_compute. reflexivity. Qed.

(* ------------------------------------------------------------------ *)
(** ** rdflib terms, graphs, and the collector state *)

Inductive term :=
| URI (s : string)
| Lit (s : string)
| LitT (s : string) (datatype : string)
| BNode (n : nat).

Global Instance term_eq_dec : EqDecision term.
Proof. solve_decision. Defined.

Definition triple : Type := term * term * term.

Definition graph : Type := list triple.

Definition subj (t : triple) : term := t.1.1.
Definition pred (t : triple) : term := t.1.2.
Definition obj (t : triple) : term := t.2.

(** [Graph.add]: set insertion. *)
Definition graph_add (t : triple) (gr : graph) : graph :=
  if decide (t ∈ gr) then gr else t :: gr.

Definition RDF_type : term := URI "http://www.w3.org/1999/02/22-rdf-syntax-ns#type".
Definition OWL_sameAs : term := URI "http://www.w3.org/2002/07/owl#sameAs".
Definition RDFS_Literal : string := "http://www.w3.org/2000/01/rdf-schema#Literal".

(** The state of one process: its graph ([self.g] in the coordinator,
    [chunk_graph] in a worker), the blank-node supply of [BNode()], and
    the diagnostic stream ([click.echo(..., err=True)]). *)
Record st := mkSt { g : graph; next_bnode : nat; stderr : list string }.

Definition empty_st : st := mkSt [] 0 [].

(** Python exceptions that the modelled code raises or lets through. *)
Inductive exc :=
| HTTPError            (* requests.exceptions.HTTPError (raise_for_status) *)
| ConnectionError      (* any other requests.exceptions.RequestException *)
| KeyError
| IndexError
| ValueError
| SystemExit (code : nat)
| ClickException
| SerializeError.      (* the Exception of rdflib's URIRef.n3() on an invalid IRI *)

Global Instance exc_eq_dec : EqDecision exc.
Proof. solve_decision. Defined.

(** State and exception monad: a raised exception keeps the mutations
    made before it. *)
Inductive res (A : Type) :=
| Ok (a : A) (s : st)
| Raise (e : exc) (s : st).
Arguments Ok {A} a s.
Arguments Raise {A} e s.

Definition PyM (A : Type) : Type := st -> res A.

Global Instance PyM_ret : MRet PyM := fun A a s => Ok a s.
Global Instance PyM_bind : MBind PyM := fun A B k m s =>
  match m s with
  | Ok a s' => k a s'
  | Raise e s' => Raise e s'
  end.

Definition raise {A} (e : exc) : PyM A := fun s => Raise e s.

Definition res_st {A} (r : res A) : st :=
  match r with Ok _ s => s | Raise _ s => s end.

Definition add (t : triple) : PyM unit :=
  fun s => Ok tt (mkSt (graph_add t (g s)) (next_bnode s) (stderr s)).

(** [BNode()]: a fresh blank node. *)
Definition new_bnode : PyM term :=
  fun s => Ok (BNode (next_bnode s)) (mkSt (g s) (S (next_bnode s)) (stderr s)).

Definition echo_err (msg : string) : PyM unit :=
  fun s => Ok tt (mkSt (g s) (next_bnode s) (stderr s ++ [msg])).

(** A [for] loop over a list. *)
Fixpoint mfor {A} (l : list A) (body : A -> PyM unit) : PyM unit :=
  match l with
  | [] => mret tt
  | x :: xs => body x ;; mfor xs body
  end.

(** A [for] loop that updates one accumulator. *)
Fixpoint mfold {A B} (body : B -> A -> PyM B) (l : list A) (acc : B) : PyM B :=
  match l with
  | [] => mret acc
  | x :: xs => acc' ← body acc x; mfold body xs acc'
  end.

Definition of_option {A} (e : exc) (o : option A) : PyM A :=
  match o with Some a => mret a | None => raise e end.

(** rdflib's [_invalid_uri_chars]: the Turtle serializer writes every
    IRI either as a prefixed name ([compute_qname], which refuses an IRI
    holding one of these characters) or by [URIRef.n3()], which raises on
    such an IRI.  Literals, blank nodes and the constant datatype IRIs
    never make it raise. *)
Definition invalid_uri_chars : list ascii :=
  ["<"; ">"; ascii_of_nat 34; " "; "{"; "}"; "|"; "\"; "^"; "`"]%char.

Definition uri_char_ok (c : ascii) : bool :=
  negb (existsb (Ascii.eqb c) invalid_uri_chars).

Fixpoint _is_valid_uri (uri : string) : bool :=
  match uri with
  | EmptyString => true
  | String c rest => uri_char_ok c && _is_valid_uri rest
  end.

Definition n3_ok (x : term) : bool :=
  match x with URI u => _is_valid_uri u | _ => true end.

Definition triple_n3_ok (t : triple) : bool :=
  n3_ok (subj t) && n3_ok (pred t) && n3_ok (obj t).

(** [chunk_graph.serialize(destination=temp_file.name, format='turtle')]
    succeeds exactly when every IRI of the graph is valid. *)
Definition serialize_ok (gr : graph) : bool := forallb triple_n3_ok gr.

(** Running a worker body in a fresh process on an empty graph: the
    worker serializes its graph to a temporary file and hands it back, or
    the exception raised by the body or by the serializer. *)
Definition run_worker (m : PyM unit) : exc + graph :=
  match m empty_st with
  | Ok _ s => if serialize_ok (g s) then inr (g s) else inl SerializeError
  | Raise e _ => inl e
  end.

(* ------------------------------------------------------------------ *)
(** ** [BaseCollector] *)

Record collector := mkCollector {
  repo_url : string;
  parallel : bool;
  chunk_size : nat;
  workers : nat
}.

(** [self.g.parse(temp_file, format='turtle')]: the partial graph is
    read back with its blank nodes renamed apart from the ones already
    in use, and every triple is added. *)
Definition bnode_bound (pg : graph) : nat :=
  foldr (fun t acc =>
           let b x := match x with BNode n => S n | _ => 0 end in
           Nat.max (b (subj t)) (Nat.max (b (obj t)) acc)) 0 pg.

Definition rename_term (off : nat) (x : term) : term :=
  match x with BNode n => BNode (off + n) | _ => x end.

Definition rename_triple (off : nat) (t : triple) : triple :=
  (rename_term off (subj t), pred t, rename_term off (obj t)).

Definition graph_parse (pg : graph) : PyM unit :=
  fun s =>
    let off := next_bnode s in
    mfor (rev (map (rename_triple off) pg)) add
         (mkSt (g s) (off + bnode_bound pg) (stderr s)).

(** [[packages[i:i+n] for i in range(0, len(packages), n)]] for [n > 0]. *)
Fixpoint chunks_aux {A} (fuel n : nat) (l : list A) : list (list A) :=
  match fuel with
  | 0 => []
  | S fuel' =>
      match l with
      | [] => []
      | _ => firstn n l :: chunks_aux fuel' n (skipn n l)
      end
  end.

Definition chunks {A} (n : nat) (l : list A) : list (list A) :=
  chunks_aux (length l) n l.

(** [future.result()] for every future in submission order: the first
    exception is re-raised, before anything is merged. *)
Fixpoint results {A} (f : list A -> nat -> exc + graph) (i : nat)
         (cs : list (list A)) : exc + list graph :=
  match cs with
  | [] => inr []
  | c :: cs' =>
      match f c i with
      | inl e => inl e
      | inr pg =>
          match results f (S i) cs' with
          | inl e => inl e
          | inr pgs => inr (pg :: pgs)
          end
      end
  end.

(** The single-threaded test of [collect_parallel] (and of its callers). *)
Definition use_single_threaded (self : collector) (n : nat) : bool :=
  negb (parallel self) || (n <? chunk_size self).

Definition collect_parallel {A} (self : collector) (packages : list A)
           (process_chunk_func : list A -> nat -> exc + graph) : PyM nat :=
  if use_single_threaded self (length packages) then
    (* "The caller should handle this case separately" *)
    mret (length packages)
  else if decide (chunk_size self = 0) then
    raise ValueError                  (* range() arg 3 must not be zero *)
  else
    match results process_chunk_func 0 (chunks (chunk_size self) packages) with
    | inl e => raise e
    | inr temp_files => mfor temp_files graph_parse ;; mret (length packages)
    end.

(** [merge_turtle_files] on the contents of the files, each the list of
    its lines: the lines written to [output_file] (the [os.unlink] calls
    are not modelled).  After the first file, the loop over [inf] skips
    lines up to the first one that is neither an [@prefix] line nor blank,
    writes that line and then the rest of the file. *)
Fixpoint skip_prefix_lines (inf : list string) : list string :=
  match inf with
  | [] => []
  | line :: rest =>
      if negb (Py.startswith line "@prefix") && negb (String.eqb (Py.strip line) "")
      then line :: rest
      else skip_prefix_lines rest
  end.

Fixpoint merge_turtle_files_from (i : nat) (temp_files : list (list string)) : list string :=
  match temp_files with
  | [] => []
  | inf :: rest =>
      (if 0 <? i then skip_prefix_lines inf else inf) ++ merge_turtle_files_from (S i) rest
  end.

Definition merge_turtle_files (temp_files : list (list string)) : list string :=
  merge_turtle_files_from 0 temp_files.

(* ------------------------------------------------------------------ *)
(** ** More string helpers used by the collectors *)

Module PyStr.
Import Py.

(** [c in s] for a one-character [c]. *)
Fixpoint contains_char (c : ascii) (s : string) : bool :=
  match s with
  | EmptyString => false
  | String d s' => ch_eqb c d || contains_char c s'
  end.

(** [s.split(c, 1)] when [c in s]: the text before and after the first [c]. *)
Fixpoint split_once (c : ascii) (s : string) : string * string :=
  match s with
  | EmptyString => (EmptyString, EmptyString)
  | String d s' =>
      if ch_eqb c d then (EmptyString, s')
      else let '(a, b) := split_once c s' in (String d a, b)
  end.

(** [s.rstrip('/')] *)
Fixpoint lstrip_slash (s : string) : string :=
  match s with
  | String c s' => if ch_eqb c "/"%char then lstrip_slash s' else s
  | EmptyString => EmptyString
  end.

Definition rstrip_slash (s : string) : string := srev (lstrip_slash (srev s)).

End PyStr.

(** A Python [dict] with string keys and values, as the list of its
    items in insertion order. *)
Definition dict : Type := list (string * string).

Fixpoint dict_get (d : dict) (k : string) : option string :=
  match d with
  | [] => None
  | (k', v) :: d' => if String.eqb k k' then Some v else dict_get d' k
  end.

(** [d[k] = v]: an existing key keeps its position. *)
Fixpoint dict_set (k v : string) (d : dict) : dict :=
  match d with
  | [] => [(k, v)]
  | (k', v') :: d' =>
      if String.eqb k k' then (k', v) :: d' else (k', v') :: dict_set k v d'
  end.

Definition dict_has (d : dict) (k : string) : bool :=
  match dict_get d k with Some _ => true | None => false end.

(** [d[k]] *)
Definition getitem (d : dict) (k : string) : PyM string :=
  of_option KeyError (dict_get d k).

(** The name index [pkg_map]: a [dict] from a package key to a URI. *)
Abbreviation pkg_map_t := (gmap string term).

(* ------------------------------------------------------------------ *)
(** ** [DebianCollector] *)

Module Debian.
Import Py PyStr.

Definition DEB : string := "http://packagegraph.github.io/ontology/debian#".

Record debian := mkDebian {
  base : collector;
  distribution : string;
  component : string;
  arch : string
}.

Section WithHttp.

(** [requests.get(url)] followed by [raise_for_status()] and, for the
    [.gz] resources, [gzip.decompress(...).decode(...)]: the decoded text,
    or the exception raised on the way. *)
Variable http_get : string -> exc + string.

Definition fetch (url : string) : PyM string :=
  match http_get url with inl e => raise e | inr t => mret t end.

Definition is_request_exception (e : exc) : bool :=
  match e with HTTPError | ConnectionError => true | _ => false end.

Variable self : debian.

Definition base_url : string := rstrip_slash (repo_url (base self)).

(** [_get_release_info]: Codename, Suite, Origin (the last line of each
    kind wins), [None] when one is missing. *)
Definition release_field (line : string)
           (acc : option string * option string * option string)
  : option string * option string * option string :=
  let '(cn, su, og) := acc in
  let value := strip (split_once ":"%char line).2 in
  if startswith line "Codename:" then (Some value, su, og)
  else if startswith line "Suite:" then (cn, Some value, og)
  else if startswith line "Origin:" then (cn, su, Some value)
  else acc.

Definition release_url : string :=
  base_url +:+ "/dists/" +:+ distribution self +:+ "/Release".

Definition _get_release_info : PyM (option (string * string * string)) :=
  fun s =>
    match http_get release_url with
    | inl e =>
        if is_request_exception e then
          (echo_err "Error: Could not fetch or parse Release file" ;;
           raise (SystemExit 1)) s
        else Raise e s
    | inr text =>
        match fold_left (fun acc l => release_field l acc) (splitlines text)
                        (None, None, None) with
        | (Some cn, Some su, Some og) => Ok (Some (cn, su, og)) s
        | _ => Ok None s
        end
    end.

(** One stanza: [{k.strip(): v.strip() for k, v in (line.split(':', 1)
    for line in pkg_info.strip().split('\n') if ':' in line)}]. *)
Definition parse_stanza (pkg_info : string) : dict :=
  fold_left
    (fun d line =>
       if contains_char ":"%char line then
         let '(k, v) := split_once ":"%char line in dict_set (strip k) (strip v) d
       else d)
    (split_on (chr 10) (strip pkg_info)) [].

Definition has_identity (d : dict) : bool :=
  dict_has d "Package" && dict_has d "Version".

Definition parse_packages (content : string) : list dict :=
  filter (fun d => has_identity d = true)
         (map parse_stanza (split_blank_line (strip content))).

Definition packages_url : string :=
  base_url +:+ "/dists/" +:+ distribution self +:+ "/" +:+ component self
  +:+ "/" +:+ arch self +:+ "/Packages.gz".

Definition _get_packages_data : PyM (list dict) :=
  content ← fetch packages_url; mret (parse_packages content).

Definition pkg_uri (pkg_name pkg_version : string) : term :=
  URI (DEB +:+ quote (pkg_name +:+ "-" +:+ pkg_version)).

Definition _add_distribution_metadata (codename suite origin : string) : PyM unit :=
  let dist_uri := URI (DEB +:+ origin) in
  let suite_uri := URI (DEB +:+ suite) in
  let codename_uri := URI (DEB +:+ codename) in
  add (dist_uri, RDF_type, URI (DEB +:+ "Distribution")) ;;
  add (codename_uri, RDF_type, URI (DEB +:+ "Suite")) ;;
  add (codename_uri, URI (DEB +:+ "partOfDistribution"), dist_uri) ;;
  if String.eqb suite codename then mret tt
  else add (suite_uri, OWL_sameAs, codename_uri).

Definition dep_keys : list string :=
  ["Depends"; "Recommends"; "Suggests"; "Conflicts"; "Replaces"; "Provides"].

(** The loop body over [packages_data] of
    [_process_packages_single_threaded]; the body of
    [_process_package_chunk] is the same text on [chunk_graph], with its
    own copy of the dependency parser ([_parse_dependency_string_static],
    identical to [_parse_dependency_string]). *)
Definition emit_package (codename_uri : term) (pkg_data : dict) : PyM unit :=
  pkg_name ← getitem pkg_data "Package";
  pkg_version ← getitem pkg_data "Version";
  let uri := pkg_uri pkg_name pkg_version in
  add (uri, RDF_type, URI (DEB +:+ "DebianPackage")) ;;
  add (uri, URI (DEB +:+ "inSuite"), codename_uri) ;;
  add (uri, URI (DEB +:+ "name"), Lit pkg_name) ;;
  add (uri, URI (DEB +:+ "version"), Lit pkg_version) ;;
  mfor pkg_data (fun kv =>
    let prop_name := remove_dash (lower kv.1) in
    if bool_decide (prop_name ∈ ["package"; "version"]) then mret tt
    else add (uri, URI (DEB +:+ prop_name), Lit kv.2)) ;;
  mfor dep_keys (fun dep_key =>
    match dict_get pkg_data dep_key with
    | None => mret tt
    | Some field =>
        dependencies ← of_option IndexError (Dep._parse_dependency_string field);
        mfor dependencies (fun dep =>
          dep_bnode ← new_bnode;
          add (uri, URI (DEB +:+ lower dep_key), dep_bnode) ;;
          add (dep_bnode, URI (DEB +:+ "packageName"), Lit dep.1) ;;
          match dep.2 with
          | Some (String _ _ as c) => add (dep_bnode, URI (DEB +:+ "versionConstraint"), Lit c)
          | _ => mret tt
          end)
    end).

Definition _process_packages_single_threaded (packages_data : list dict)
           (codename suite origin : string) : PyM nat :=
  mfor packages_data (emit_package (URI (DEB +:+ codename))) ;;
  mret (length packages_data).

(** One manifest line of [_process_contents_single_threaded] and of
    [_process_contents_chunk] (the same text). *)
Definition process_contents_line (pkg_map : pkg_map_t) (line : string) : PyM unit :=
  let parts := split_ws (strip line) in
  if length parts <? 2 then mret tt
  else
    let file_path := default EmptyString (head parts) in
    let pkg_names_str := last_or EmptyString parts in
    mfor (split_on ","%char pkg_names_str) (fun pkg_name =>
      let clean_pkg_name := last_or EmptyString (split_on "/"%char pkg_name) in
      match pkg_map !! clean_pkg_name with
      | Some u => add (u, URI (DEB +:+ "fileName"), Lit file_path)
      | None => mret tt
      end).

Definition _process_contents_single_threaded (lines : list string)
           (pkg_map : pkg_map_t) : PyM unit :=
  mfor lines (process_contents_line pkg_map).

End WithHttp.

(** Worker functions (static methods): a fresh process and graph each. *)
Definition _process_package_chunk (packages_chunk : list dict) (chunk_id : nat)
           (codename suite origin : string) : exc + graph :=
  run_worker (mfor packages_chunk (emit_package (URI (DEB +:+ codename)))).

Definition _process_package_chunk_wrapper
           (data_chunk : list (dict * string * string * string)) (chunk_id : nat)
  : exc + graph :=
  match data_chunk with
  | [] => inl IndexError
  | (_, codename, suite, origin) :: _ =>
      _process_package_chunk (map (fun it => it.1.1.1) data_chunk) chunk_id
                             codename suite origin
  end.

Definition _process_contents_chunk (lines_chunk : list string) (chunk_id : nat)
           (pkg_map : pkg_map_t) : exc + graph :=
  run_worker (mfor lines_chunk (process_contents_line pkg_map)).

Definition _process_contents_chunk_wrapper
           (data_chunk : list (string * pkg_map_t)) (chunk_id : nat) : exc + graph :=
  match data_chunk with
  | [] => inl IndexError
  | (_, pkg_map) :: _ => _process_contents_chunk (map fst data_chunk) chunk_id pkg_map
  end.

(** The loop body of [_build_package_map]. *)
Definition build_package_map_body (pkg_map : pkg_map_t) (pkg_data : dict)
  : PyM pkg_map_t :=
  pkg_name ← getitem pkg_data "Package";
  pkg_version ← getitem pkg_data "Version";
  mret (<[pkg_name := pkg_uri pkg_name pkg_version]> pkg_map).

Definition _build_package_map (packages_data : list dict) : PyM pkg_map_t :=
  mfold build_package_map_body packages_data ∅.

Section WithHttp2.
Variable http_get : string -> exc + string.
Variable self : debian.

Definition contents_url : string :=
  base_url self +:+ "/dists/" +:+ distribution self +:+ "/Contents-"
  +:+ last_or EmptyString (split_on "-"%char (arch self)) +:+ ".gz".

(** [try: ... except requests.exceptions.HTTPError as e: ...] *)
Definition try_http (body : PyM unit) (handler : PyM unit) : PyM unit :=
  fun s => match body s with
           | Raise HTTPError s' => handler s'
           | r => r
           end.

(** The message without its [: {e}] suffix. *)
Definition contents_warning : string :=
  "Warning: Could not download Contents file at " +:+ contents_url.

Definition _process_contents_parallel (pkg_map : pkg_map_t) : PyM unit :=
  try_http
    (contents_content ← fetch http_get contents_url;
     let lines := splitlines contents_content in
     if use_single_threaded (base self) (length lines) then
       _process_contents_single_threaded lines pkg_map
     else
       (collect_parallel (base self) (map (fun line => (line, pkg_map)) lines)
                         _process_contents_chunk_wrapper ;; mret tt))
    (echo_err contents_warning).

(** The older [_process_packages] (not called by [collect]): one pass
    that emits the distribution metadata (the same four lines as
    [_add_distribution_metadata]), every package, and returns the name
    index.  Its attribute loop skips the dependency fields. *)
Definition legacy_dep_skip : list string :=
  ["depends"; "recommends"; "suggests"; "breaks"; "enhances"; "predepends"].

Definition legacy_dep_fields : list string :=
  ["Depends"; "Recommends"; "Suggests"; "Breaks"; "Enhances"; "Pre-Depends"].

Definition legacy_package_body (codename_uri : term) (pkg_map : pkg_map_t)
           (pkg_info : string) : PyM pkg_map_t :=
  let pkg_data := parse_stanza pkg_info in
  if dict_has pkg_data "Package" && dict_has pkg_data "Version" then
    pkg_name ← getitem pkg_data "Package";
    pkg_version ← getitem pkg_data "Version";
    let uri := pkg_uri pkg_name pkg_version in
    let pkg_map' := <[pkg_name := uri]> pkg_map in
    add (uri, RDF_type, URI (DEB +:+ "DebianPackage")) ;;
    add (uri, URI (DEB +:+ "inSuite"), codename_uri) ;;
    add (uri, URI (DEB +:+ "name"), Lit pkg_name) ;;
    add (uri, URI (DEB +:+ "version"), Lit pkg_version) ;;
    mfor pkg_data (fun kv =>
      let prop_name := remove_dash (lower kv.1) in
      if bool_decide (prop_name ∈ legacy_dep_skip) then mret tt
      else add (uri, URI (DEB +:+ prop_name), Lit kv.2)) ;;
    mfor legacy_dep_fields (fun field =>
      match dict_get pkg_data field with
      | None => mret tt
      | Some value =>
          let prop_uri := URI (DEB +:+ remove_dash (lower field)) in
          dependencies ← of_option IndexError (Dep._parse_dependency_string value);
          mfor dependencies (fun dep =>
            dep_bnode ← new_bnode;
            add (uri, prop_uri, dep_bnode) ;;
            add (dep_bnode, RDF_type, URI (DEB +:+ "Dependency")) ;;
            add (dep_bnode, URI (DEB +:+ "onPackage"),
                 URI (DEB +:+ "package/" +:+ quote dep.1)) ;;
            match dep.2 with
            | Some (String _ _ as c) => add (dep_bnode, URI (DEB +:+ "versionConstraint"), Lit c)
            | _ => mret tt
            end)
      end) ;;
    mret pkg_map'
  else mret pkg_map.

Definition _process_packages (codename suite origin : string) : PyM pkg_map_t :=
  content ← fetch http_get (packages_url self);
  _add_distribution_metadata codename suite origin ;;
  mfold (legacy_package_body (URI (DEB +:+ codename)))
        (split_blank_line (strip content)) ∅.

(** The older [_process_contents] (not called by [collect]): the same
    download and line loop, always sequential. *)
Definition _process_contents (pkg_map : pkg_map_t) : PyM unit :=
  try_http
    (contents_content ← fetch http_get contents_url;
     mfor (splitlines contents_content) (process_contents_line pkg_map))
    (echo_err contents_warning).

Definition collect : PyM nat :=
  release_info ← _get_release_info http_get self;
  match release_info with
  | None =>
      echo_err "Could not determine release information. Aborting." ;;
      raise (SystemExit 1)
  | Some (codename, suite, origin) =>
      _add_distribution_metadata codename suite origin ;;
      packages_data ← _get_packages_data http_get self;
      processed_count ←
        (if use_single_threaded (base self) (length packages_data) then
           _process_packages_single_threaded packages_data codename suite origin
         else
           collect_parallel (base self)
             (map (fun pkg_data => (pkg_data, codename, suite, origin)) packages_data)
             _process_package_chunk_wrapper);
      pkg_map ← _build_package_map packages_data;
      _process_contents_parallel pkg_map ;;
      mret processed_count
  end.

End WithHttp2.

End Debian.

(* ------------------------------------------------------------------ *)
(** ** [RpmCollector]

    The XML documents are given parsed (ElementTree is an external
    collaborator).  An element that [find] does not locate is [None];
    the [.text] of a located element, and an attribute read with [.get],
    are [option string] since both may be Python [None]. *)

Module Rpm.
Import Py.

Definition RPM : string := "http://packagegraph.github.io/ontology/rpm#".

(** A [common:package] element of [primary.xml]. *)
Record pkg_elem := mkPkgElem {
  e_name : option (option string);                      (* common:name .text *)
  e_version : option (option string * option string);   (* common:version ver=, rel= *)
  e_arch : option (option string);
  e_summary : option (option string);
  e_description : option (option string);
  e_checksum : option (option string);
  e_format : option (list (option string * option string))
    (* common:format, its rpm:requires/rpm:entry name=, ver= *)
}.

(** The [pkg_data] dict built by [_get_primary_packages_data]. *)
Record pkg_data := mkPkgData {
  name : option string;
  version : option string;
  release : option string;
  p_arch : option string;
  summary : option string;
  description : option string;
  pkgid : option string;
  format_element : option (list (option string * option string))
}.

(** [el.text if el is not None else ''] *)
Definition text_or_empty (el : option (option string)) : option string :=
  match el with None => Some EmptyString | Some t => t end.

Definition to_pkg_data (pkg : pkg_elem) : pkg_data :=
  mkPkgData
    (text_or_empty (e_name pkg))
    (match e_version pkg with None => Some EmptyString | Some (ver, _) => ver end)
    (match e_version pkg with None => Some EmptyString | Some (_, rel) => rel end)
    (text_or_empty (e_arch pkg))
    (text_or_empty (e_summary pkg))
    (text_or_empty (e_description pkg))
    (text_or_empty (e_checksum pkg))
    (e_format pkg).

(** The warning of [_get_metadata_url] (on stderr) when repomd.xml has
    no location of the given type; its other [click.echo] lines go to
    stdout, which is not modelled. *)
Definition metadata_warning (metadata_type : string) : string :=
  "Warning: Could not find '" +:+ metadata_type +:+ "' metadata location in repomd.xml".

(** [_get_primary_packages_data]; [None] is a repomd.xml without a
    [primary] location: [_get_metadata_url] warns and the method returns []. *)
Definition _get_primary_packages_data (primary : option (list pkg_elem))
  : PyM (list pkg_data) :=
  match primary with
  | None => echo_err (metadata_warning "primary") ;; mret []
  | Some packages => mret (map to_pkg_data packages)
  end.

(** [f"{x}"]: Python [None] formats as ["None"]. *)
Definition fmt (x : option string) : string :=
  match x with Some s => s | None => "None" end.

(** Python truthiness of a [str] or [None]. *)
Definition truthy (x : option string) : bool :=
  match x with Some (String _ _) => true | _ => false end.

Definition pkg_uri (d : pkg_data) : term :=
  URI (RPM +:+ quote (fmt (name d) +:+ "-" +:+ fmt (version d) +:+ "-"
                      +:+ fmt (release d) +:+ "." +:+ fmt (p_arch d))).

Abbreviation rpm_map_t := (gmap (option string) term).

Definition _build_package_map (packages_data : list pkg_data) : rpm_map_t :=
  fold_left (fun m d => <[pkgid d := pkg_uri d]> m) packages_data ∅.

(** Loop body of [_process_package_chunk]. *)
Definition emit_package (d : pkg_data) : PyM unit :=
  let uri := pkg_uri d in
  add (uri, RDF_type, URI (RPM +:+ "RpmPackage")) ;;
  add (uri, URI (RPM +:+ "name"), Lit (fmt (name d))) ;;
  add (uri, URI (RPM +:+ "version"), Lit (fmt (version d))) ;;
  add (uri, URI (RPM +:+ "release"), Lit (fmt (release d))) ;;
  add (uri, URI (RPM +:+ "arch"), Lit (fmt (p_arch d))) ;;
  (if truthy (summary d) then add (uri, URI (RPM +:+ "summary"), Lit (fmt (summary d)))
   else mret tt) ;;
  (if truthy (description d)
   then add (uri, URI (RPM +:+ "description"), Lit (fmt (description d)))
   else mret tt) ;;
  match format_element d with
  | None => mret tt
  | Some entries =>
      mfor entries (fun dep_entry =>
        dep_bnode ← new_bnode;
        add (uri, URI (RPM +:+ "requires"), dep_bnode) ;;
        (if truthy dep_entry.1
         then add (dep_bnode, URI (RPM +:+ "dependencyName"), Lit (fmt dep_entry.1))
         else mret tt) ;;
        (if truthy dep_entry.2
         then add (dep_bnode, URI (RPM +:+ "dependencyVersion"), Lit (fmt dep_entry.2))
         else mret tt))
  end.

Definition _process_package_chunk (packages_chunk : list pkg_data) (chunk_id : nat)
  : exc + graph :=
  run_worker (mfor packages_chunk emit_package).

(** A [filelists:package] element: [pkgid=] and the [.text] of its files. *)
Definition fl_elem : Type := option string * list (option string).

Record fl_data := mkFlData { fl_pkgid : string; files : list string }.

Definition to_fl_data (pkg : fl_elem) : option fl_data :=
  let files := omap (fun t => if truthy t then Some (fmt t) else None) pkg.2 in
  if truthy pkg.1 && bool_decide (files <> []) then Some (mkFlData (fmt pkg.1) files)
  else None.

Definition _process_filelists_chunk (filelists_chunk : list fl_data) (chunk_id : nat)
           (pkg_map : rpm_map_t) : exc + graph :=
  run_worker (mfor filelists_chunk (fun d =>
    match pkg_map !! Some (fl_pkgid d) with
    | None => mret tt
    | Some uri => mfor (files d) (fun filename =>
                    add (uri, URI (RPM +:+ "fileName"), Lit filename))
    end)).

Definition _process_filelists_chunk_wrapper
           (data_chunk : list (fl_data * rpm_map_t)) (chunk_id : nat) : exc + graph :=
  match data_chunk with
  | [] => inl IndexError
  | (_, pkg_map) :: _ => _process_filelists_chunk (map fst data_chunk) chunk_id pkg_map
  end.

(** An [other:changelog] element: [.text], [author=], [date=]. *)
Record changelog := mkChangelog {
  cl_text : option string; cl_author : option string; cl_date : option string }.

Definition ot_elem : Type := option string * list changelog.

Record ot_data := mkOtData { ot_pkgid : string; changelogs : list changelog }.

Definition to_ot_data (pkg : ot_elem) : option ot_data :=
  if truthy pkg.1 && bool_decide (pkg.2 <> []) then Some (mkOtData (fmt pkg.1) pkg.2)
  else None.

Definition _process_other_chunk (other_chunk : list ot_data) (chunk_id : nat)
           (pkg_map : rpm_map_t) : exc + graph :=
  run_worker (mfor other_chunk (fun d =>
    match pkg_map !! Some (ot_pkgid d) with
    | None => mret tt
    | Some uri =>
        mfor (changelogs d) (fun cl =>
          cl_bnode ← new_bnode;
          add (uri, URI (RPM +:+ "hasChangelog"), cl_bnode) ;;
          add (cl_bnode, RDF_type, URI (RPM +:+ "Changelog")) ;;
          (if truthy (cl_text cl)
           then add (cl_bnode, URI (RPM +:+ "changelogText"), Lit (fmt (cl_text cl)))
           else mret tt) ;;
          (if truthy (cl_author cl)
           then add (cl_bnode, URI (RPM +:+ "changelogAuthor"), Lit (fmt (cl_author cl)))
           else mret tt) ;;
          (if truthy (cl_date cl)
           then add (cl_bnode, URI (RPM +:+ "changelogTime"),
                     LitT (fmt (cl_date cl)) RDFS_Literal)
           else mret tt))
    end)).

Definition _process_other_chunk_wrapper
           (data_chunk : list (ot_data * rpm_map_t)) (chunk_id : nat) : exc + graph :=
  match data_chunk with
  | [] => inl IndexError
  | (_, pkg_map) :: _ => _process_other_chunk (map fst data_chunk) chunk_id pkg_map
  end.

Section Collect.
Variable self : collector.

Definition _process_filelists_parallel (filelists : option (list fl_elem))
           (pkg_map : rpm_map_t) : PyM unit :=
  match filelists with
  | None => echo_err (metadata_warning "filelists")
  | Some packages =>
      let filelists_data := omap to_fl_data packages in
      collect_parallel self (map (fun d => (d, pkg_map)) filelists_data)
                       _process_filelists_chunk_wrapper ;; mret tt
  end.

Definition _process_other_parallel (other : option (list ot_elem))
           (pkg_map : rpm_map_t) : PyM unit :=
  match other with
  | None => echo_err (metadata_warning "other")
  | Some packages =>
      let other_data := omap to_ot_data packages in
      collect_parallel self (map (fun d => (d, pkg_map)) other_data)
                       _process_other_chunk_wrapper ;; mret tt
  end.

(** [RpmCollector.collect] on the parsed [primary], [filelists] and
    [other] documents. *)
Definition collect (primary : option (list pkg_elem))
           (filelists : option (list fl_elem)) (other : option (list ot_elem))
  : PyM nat :=
  packages_data ← _get_primary_packages_data primary;
  processed_count ← collect_parallel self packages_data _process_package_chunk;
  let pkg_map := _build_package_map packages_data in
  _process_filelists_parallel filelists pkg_map ;;
  _process_other_parallel other pkg_map ;;
  mret processed_count.

End Collect.

End Rpm.

(* ------------------------------------------------------------------ *)
(** ** [packagegraph/checker.py]

    [Graph().parse(file_path, format='turtle')] is external: [parse path]
    is the number of triples read, or the text of the exception raised. *)

Module Checker.

Record validation := mkValidation {
  file : string; valid : bool; triples_count : nat;
  errors : list string; warnings : list string }.

Definition validate_ttl_file (parse : string -> string + nat) (file_path : string)
  : validation :=
  match parse file_path with
  | inr n =>
      mkValidation file_path true n []
        (if n =? 0 then ["File contains no triples"] else [])
  | inl e => mkValidation file_path false 0 ["Unexpected error: " +:+ e] []
  end.

(** [run_check] on the list returned by [find_ttl_files]; its
    [click.echo] output is not modelled. *)
Definition run_check (parse : string -> string + nat) (ttl_files : list string) : bool :=
  match ttl_files with
  | [] => false
  | _ =>
      fold_left (fun all_valid file_path =>
                   if valid (validate_ttl_file parse file_path) then all_valid else false)
                ttl_files true
  end.

End Checker.

(* ------------------------------------------------------------------ *)
(** ** [main.py]: [test_cross_references] on the combined graph

    [str()] of a term: the IRI or the lexical form; a blank node prints
    as its identifier, which holds no [:]. *)

Module MainTests.

Definition str (x : term) : string :=
  match x with
  | URI s => s
  | Lit s => s
  | LitT s _ => s
  | BNode n => "N" +:+ pretty n
  end.

(** [set.add] on a set kept as the list of its elements. *)
Definition set_add (x : term) (l : list term) : list term :=
  if decide (x ∈ l) then l else l ++ [x].

Definition core_namespace : string := "http://packagegraph.github.io/ontology/core#".

Record cross_ref_result := mkCrossRef {
  core_references : nat; defined_core_terms : nat;
  issues : list string; success : bool }.

Definition test_cross_references (combined_graph : graph) : cross_ref_result :=
  let core_refs :=
    fold_left (fun acc t =>
                 let acc := if Py.startswith (str (subj t)) core_namespace
                            then set_add (subj t) acc else acc in
                 let acc := if Py.startswith (str (pred t)) core_namespace
                            then set_add (pred t) acc else acc in
                 if Py.startswith (str (obj t)) core_namespace
                 then set_add (obj t) acc else acc)
              combined_graph [] in
  let defined :=
    fold_left (fun acc t =>
                 if Py.startswith (str (subj t)) core_namespace
                    && bool_decide (pred t ∈ [RDF_type])
                 then set_add (subj t) acc else acc)
              combined_graph [] in
  let issues : list string := [] in
  mkCrossRef (length core_refs) (length defined) issues (length issues =? 0).

End MainTests.

(* ================================================================== *)
(** * Concrete inputs used by the properties *)

Definition nl : string := String (Py.chr 10) EmptyString.

Definition rpm_foo : Rpm.pkg_elem :=
  Rpm.mkPkgElem (Some (Some "foo")) (Some (Some "1.0", Some "1"))
                (Some (Some "x86_64")) None None (Some (Some "abc")) None.

Definition rpm_foo_uri : term :=
  URI (Rpm.RPM +:+ "foo-1.0-1.x86_64").

(** A [primary.xml] package with no [name] and no [version] element. *)
Definition rpm_unnamed : Rpm.pkg_elem :=
  Rpm.mkPkgElem None None (Some (Some "x86_64")) None None (Some (Some "abc")) None.

Definition deb_foo : dict := [("Package", "foo"); ("Version", "1.0"); ("Depends", "bar")].

Definition deb_pkg (name version : string) : dict :=
  [("Package", name); ("Version", version)].

(** Two versions of [a], then [a-1 2], whose URI is the one of [a 1-2]. *)
Definition c10_pkgs : list dict := [deb_pkg "a" "1-2"; deb_pkg "a" "3"; deb_pkg "a-1" "2"].

Definition c10_map : pkg_map_t :=
  match Debian._build_package_map c10_pkgs empty_st with
  | Ok m _ => m
  | Raise _ _ => ∅
  end.

(** The [Package] and [Version] fields of a stanza that has them. *)
Definition pname (d : dict) : string := default EmptyString (dict_get d "Package").
Definition pver (d : dict) : string := default EmptyString (dict_get d "Version").

(** A Debian repository [http://r], distribution [d], component [main],
    architecture [amd64]; [c6_http contents] serves its Release file and
    Packages file (one package [foo 1.0]), answers the Contents URL with
    [contents] and fails with a connection error elsewhere. *)
Definition c6_repo : Debian.debian :=
  Debian.mkDebian (mkCollector "http://r" true 1000 4) "d" "main" "amd64".

Definition c6_release : string :=
  "Codename: c" +:+ nl +:+ "Suite: s" +:+ nl +:+ "Origin: o".

Definition c6_packages : string := "Package: foo" +:+ nl +:+ "Version: 1.0".

Definition c6_http (contents : exc + string) (url : string) : exc + string :=
  if String.eqb url (Debian.release_url c6_repo) then inr c6_release
  else if String.eqb url (Debian.packages_url c6_repo) then inr c6_packages
  else if String.eqb url (Debian.contents_url c6_repo) then contents
  else inl ConnectionError.

Definition c6_manifest_ok : string -> exc + string := c6_http (inr "/usr/bin/foo foo").

(** The operations on the combined graph during one [collect()]: each
    relates the state before it to the state after it, whether it returns
    or raises. *)
Inductive pipeline_step : st -> st -> Prop :=
| step_distribution_metadata cn su og s :
    pipeline_step s (res_st (Debian._add_distribution_metadata cn su og s))
| step_release_info http_get self s :
    pipeline_step s (res_st (Debian._get_release_info http_get self s))
| step_packages_data http_get self s :
    pipeline_step s (res_st (Debian._get_packages_data http_get self s))
| step_package_emission pds cn su og s :
    pipeline_step s (res_st (Debian._process_packages_single_threaded pds cn su og s))
| step_chunk_merge pg s :
    pipeline_step s (res_st (graph_parse pg s))
| step_collect_parallel (A : Type) (self : collector) (items : list A) f s :
    pipeline_step s (res_st (collect_parallel self items f s))
| step_build_package_map pds s :
    pipeline_step s (res_st (Debian._build_package_map pds s))
| step_manifest_linking lines pkg_map s :
    pipeline_step s (res_st (Debian._process_contents_single_threaded lines pkg_map s))
| step_contents_phase http_get self pkg_map s :
    pipeline_step s (res_st (Debian._process_contents_parallel http_get self pkg_map s))
| step_debian_collect http_get self s :
    pipeline_step s (res_st (Debian.collect http_get self s))
| step_rpm_collect self primary filelists other s :
    pipeline_step s (res_st (Rpm.collect self primary filelists other s)).

(** Predicates used by the properties. *)

(** Graph growth: [adds P m] says that [m] keeps every triple and
    that each triple it adds satisfies [P], whether [m] returns or
    raises. *)
Definition adds {A} (P : triple -> Prop) (m : PyM A) : Prop :=
  forall s t,
    (t ∈ g s -> t ∈ g (res_st (m s))) /\
    (t ∈ g (res_st (m s)) -> t ∈ g s \/ P t).

(** What a worker may contribute to the combined graph. *)
Definition worker_adds {A} (P : triple -> Prop)
           (f : list A -> nat -> exc + graph) : Prop :=
  forall c j pg, f c j = inr pg -> forall t off, t ∈ pg -> P (rename_triple off t).

(** One step of the loop of [_build_package_map] on a stanza with both fields. *)
Definition index_insert (m : pkg_map_t) (d : dict) : pkg_map_t :=
  <[pname d := Debian.pkg_uri (pname d) (pver d)]> m.

(** Programs that never raise. *)
Definition no_raise {A} (m : PyM A) : Prop := forall s, exists a s', m s = Ok a s'.

(** The cleaned package names of a manifest line. *)
Definition manifest_names (line : string) : list string :=
  map (fun x => Py.last_or EmptyString (Py.split_on "/"%char x))
      (Py.split_on ","%char (Py.last_or EmptyString (Py.split_ws (Py.strip line)))).

(** A file-ownership triple justified by a manifest line. *)
Definition owned_via (pkg_map : pkg_map_t) (lines : list string) (t : triple) : Prop :=
  pred t = URI (Debian.DEB +:+ "fileName") /\
  exists line n, line ∈ lines /\ n ∈ manifest_names line /\ pkg_map !! n = Some (subj t).

(** The [fileName] triples of one manifest line, as a list. *)
Definition line_triples (pkg_map : pkg_map_t) (line : string) : list triple :=
  let parts := Py.split_ws (Py.strip line) in
  if length parts <? 2 then []
  else
    let file_path := default EmptyString (head parts) in
    omap (fun pkg_name =>
            (fun u => (u, URI (Debian.DEB +:+ "fileName"), Lit file_path))
              <$> pkg_map !! Py.last_or EmptyString (Py.split_on "/"%char pkg_name))
         (Py.split_on ","%char (Py.last_or EmptyString parts)).

(** The blank nodes of a triple's subject and object are below [k]. *)
Definition bnode_below (k : nat) (x : term) : Prop :=
  match x with BNode n => n < k | _ => True end.

Definition bnode_from (k : nat) (x : term) : Prop :=
  match x with BNode n => k <= n | _ => True end.

(** Every blank node of the graph was handed out by the supply. *)
Definition bnodes_allocated (s : st) : Prop :=
  forall t, t ∈ g s -> bnode_below (next_bnode s) (subj t) /\ bnode_below (next_bnode s) (obj t).

(** The value a stanza line gives to key [k], if any. *)
Definition line_value (k line : string) : option string :=
  if PyStr.contains_char ":"%char line then
    let '(k', v) := PyStr.split_once ":"%char line in
    if String.eqb (Py.strip k') k then Some (Py.strip v) else None
  else None.

(** The value of the last Release line starting with [pre]. *)
Definition release_last (pre : string) (lines : list string) : option string :=
  last (omap (fun l => if Py.startswith l pre
                       then Some (Py.strip (PyStr.split_once ":"%char l).2) else None)
             lines).

Fixpoint all_chars (p : ascii -> bool) (s : string) : bool :=
  match s with
  | EmptyString => true
  | String c s' => p c && all_chars p s'
  end.

(** The file-ownership triples of a filelists chunk. *)
Definition filelists_triples (pkg_map : Rpm.rpm_map_t) (chunk : list Rpm.fl_data)
  : list triple :=
  concat (map (fun d => match pkg_map !! Some (Rpm.fl_pkgid d) with
                        | None => []
                        | Some u => map (fun f => (u, URI (Rpm.RPM +:+ "fileName"), Lit f))
                                        (Rpm.files d)
                        end) chunk).

(** Programs that add exactly the triples of a list, touching nothing else. *)
Definition adds_exactly {A} (L : list triple) (m : PyM A) : Prop :=
  forall s, exists a s', m s = Ok a s' /\ next_bnode s' = next_bnode s /\
    stderr s' = stderr s /\ forall t, t ∈ g s' <-> t ∈ g s \/ t ∈ L.

(** A triple without blank nodes. *)
Definition plain (t : triple) : Prop := bnode_below 0 (subj t) /\ bnode_below 0 (obj t).

(** A triple whose predicate is one of the dependency properties has a
    blank node as its object. *)
Definition dep_object_is_node (t : triple) : Prop :=
  forall p, p ∈ Debian.legacy_dep_skip -> pred t = URI (Debian.DEB +:+ p) ->
  exists n, obj t = BNode n.

(** A term whose [str()] starts with the core namespace. *)
Definition is_core (x : term) : bool := Py.startswith (MainTests.str x) MainTests.core_namespace.

(** A line that [merge_turtle_files] treats as content. *)
Definition is_content (line : string) : bool :=
  negb (Py.startswith line "@prefix") && negb (String.eqb (Py.strip line) "").

(** The triples the changelog worker writes for one changelog entry
    [cl] of the package with IRI [u], on the blank node [BNode n]. *)
Definition changelog_triples (u : term) (n : nat) (cl : Rpm.changelog) : list triple :=
  [(u, URI (Rpm.RPM +:+ "hasChangelog"), BNode n);
   (BNode n, RDF_type, URI (Rpm.RPM +:+ "Changelog"))] ++
  (if Rpm.truthy (Rpm.cl_text cl)
   then [(BNode n, URI (Rpm.RPM +:+ "changelogText"), Lit (Rpm.fmt (Rpm.cl_text cl)))] else []) ++
  (if Rpm.truthy (Rpm.cl_author cl)
   then [(BNode n, URI (Rpm.RPM +:+ "changelogAuthor"), Lit (Rpm.fmt (Rpm.cl_author cl)))] else []) ++
  (if Rpm.truthy (Rpm.cl_date cl)
   then [(BNode n, URI (Rpm.RPM +:+ "changelogTime"),
          LitT (Rpm.fmt (Rpm.cl_date cl)) RDFS_Literal)] else []).

(** From [s] to [s'] the graph only grows, and every new triple belongs
    to a group of triples satisfying [R] that [s'] holds entirely. *)
Definition grows_by_groups (R : list triple -> Prop) (s s' : st) : Prop :=
  (forall t, t ∈ g s -> t ∈ g s') /\
  (forall t, t ∈ g s' -> t ∈ g s \/
     exists L, R L /\ t ∈ L /\ forall t', t' ∈ L -> t' ∈ g s').

(* ================================================================== *)
(** * Properties *)

(* ------------------------------------------------------------------ *)
(** ** Graph growth *)

Lemma elem_of_graph_add (t x : triple) (gr : graph) :
  t ∈ graph_add x gr <-> t = x \/ t ∈ gr.
Proof. unfold graph_add. case_decide; set_solver. Qed.

Lemma adds_weaken {A} (P Q : triple -> Prop) (m : PyM A) :
  (forall t, P t -> Q t) -> adds P m -> adds Q m.
Proof. intros HPQ Hm s t. destruct (Hm s t). naive_solver. Qed.

Lemma adds_ret {A} P (a : A) : adds P (mret a).
Proof. intros s t. cbn. tauto. Qed.

Lemma adds_raise {A} P e : adds P (@raise A e).
Proof. intros s t. cbn. tauto. Qed.

Lemma adds_add P (x : triple) : P x -> adds P (add x).
Proof.
  intros Hx s t. cbn. rewrite elem_of_graph_add. split; [tauto|].
  intros [->|?]; auto.
Qed.

Lemma adds_new_bnode P : adds P new_bnode.
Proof. intros s t. cbn. tauto. Qed.

Lemma adds_echo_err P msg : adds P (echo_err msg).
Proof. intros s t. cbn. tauto. Qed.

Lemma adds_bind {A B} P (m : PyM A) (k : A -> PyM B) :
  adds P m -> (forall a, adds P (k a)) -> adds P (m ≫= k).
Proof.
  intros Hm Hk s t. unfold mbind, PyM_bind.
  destruct (Hm s t) as [H1 H2].
  destruct (m s) as [a s'|e s'] eqn:E; cbn in *; [|tauto].
  destruct (Hk a s' t). naive_solver.
Qed.

Lemma adds_of_option {A} P e (o : option A) : adds P (of_option e o).
Proof. destruct o; [apply adds_ret | apply adds_raise]. Qed.

Lemma adds_mfor {A} P (l : list A) (body : A -> PyM unit) :
  (forall x, x ∈ l -> adds P (body x)) -> adds P (mfor l body).
Proof.
  induction l as [|x l IH]; intros Hb; cbn.
  - apply adds_ret.
  - apply adds_bind; [apply Hb; set_solver|]. intros _. apply IH.
    intros y Hy. apply Hb. set_solver.
Qed.

Lemma adds_mfor_add P (l : list triple) :
  (forall t, t ∈ l -> P t) -> adds P (mfor l add).
Proof. intros Hl. apply adds_mfor. intros x Hx. apply adds_add, Hl, Hx. Qed.

Lemma adds_graph_parse P (pg : graph) :
  (forall t off, t ∈ pg -> P (rename_triple off t)) -> adds P (graph_parse pg).
Proof.
  intros HP s t. unfold graph_parse.
  refine (adds_mfor_add P (rev (map (rename_triple (next_bnode s)) pg)) _
            (mkSt (g s) (next_bnode s + bnode_bound pg) (stderr s)) t).
  intros x Hx. rewrite list_elem_of_In, <- in_rev, in_map_iff in Hx.
  destruct Hx as (y & <- & Hy). apply HP. by apply list_elem_of_In.
Qed.

Lemma results_elem {A} (f : list A -> nat -> exc + graph) :
  forall cs i pgs, results f i cs = inr pgs ->
  forall pg, pg ∈ pgs -> exists c j, f c j = inr pg.
Proof.
  induction cs as [|c cs IH]; intros i pgs Hr pg Hpg; cbn in Hr.
  - injection Hr as <-. set_solver.
  - destruct (f c i) eqn:Ef; [discriminate|].
    destruct (results f (S i) cs) eqn:Er; [discriminate|].
    injection Hr as <-. apply elem_of_cons in Hpg as [->|Hpg]; eauto.
Qed.


Lemma adds_collect_parallel {A} P (self : collector) (packages : list A) f :
  worker_adds P f -> adds P (collect_parallel self packages f).
Proof.
  intros Hf. unfold collect_parallel.
  destruct (use_single_threaded self (length packages)); [apply adds_ret|].
  case_decide; [apply adds_raise|].
  destruct (results f 0 (chunks (chunk_size self) packages)) as [e|pgs] eqn:Er.
  - apply adds_raise.
  - apply adds_bind; [|intros; apply adds_ret].
    apply adds_mfor. intros pg Hpg. apply adds_graph_parse.
    intros t off Ht. destruct (results_elem f _ 0 pgs Er pg Hpg) as (c & j & Hc).
    eapply Hf; eauto.
Qed.

(** Running a worker from the empty graph: every triple it returns
    satisfies [P]. *)
Lemma run_worker_adds P (m : PyM unit) pg :
  adds P m -> run_worker m = inr pg -> forall t, t ∈ pg -> P t.
Proof.
  unfold run_worker. intros Hm Hr t Ht.
  destruct (m empty_st) as [a s|e s] eqn:E; [|discriminate].
  destruct (serialize_ok (g s)); [|discriminate].
  injection Hr as <-. destruct (Hm empty_st t) as [_ H2].
  rewrite E in H2. cbn in H2. destruct (H2 Ht) as [Hin|]; [|done].
  inversion Hin.
Qed.

Lemma adds_new_bnode_bind {A} P (k : term -> PyM A) :
  (forall n, adds P (k (BNode n))) -> adds P (new_bnode ≫= k).
Proof. intros Hk s t. unfold mbind, PyM_bind, new_bnode. exact (Hk (next_bnode s) (mkSt (g s) (S (next_bnode s)) (stderr s)) t). Qed.

Create HintDb adds.
#[export] Hint Resolve adds_ret adds_raise adds_new_bnode adds_echo_err
  adds_of_option : adds.

(** Decomposes a program into the pieces above. *)
Ltac adds_step :=
  match goal with
  | |- adds _ (mbind _ new_bnode) => apply adds_new_bnode_bind; intros ?
  | |- adds _ (mbind _ _) => apply adds_bind; [|intros ?]
  | |- adds _ (mfor _ _) => apply adds_mfor; intros ? ?
  | |- adds _ (add _) => apply adds_add; try exact I
  | |- adds _ (collect_parallel _ _ _) => apply adds_collect_parallel
  | |- adds _ (if _ then _ else _) => case_match
  | |- adds _ (match _ with _ => _ end) => case_match
  | |- adds _ _ => solve [auto with adds]
  end.

Ltac adds_tac := repeat (adds_step; cbn beta iota zeta).

(** A worker body that returns and adds only triples with valid IRIs
    hands back its graph: the serializer accepts it. *)
Lemma run_worker_ok (m : PyM unit) a s :
  adds (fun t => triple_n3_ok t = true) m -> m empty_st = Ok a s -> run_worker m = inr (g s).
Proof.
  intros Hm E. unfold run_worker. rewrite E.
  assert (Hs : serialize_ok (g s) = true).
  { unfold serialize_ok. apply forallb_forall. intros t Ht%list_elem_of_In.
    destruct (Hm empty_st t) as [_ H2]. rewrite E in H2. cbn in H2.
    destruct (H2 Ht) as [Hin|H]; [inversion Hin|exact H]. }
  by rewrite Hs.
Qed.

Lemma valid_uri_app (a b : string) :
  _is_valid_uri (a +:+ b) = _is_valid_uri a && _is_valid_uri b.
Proof. induction a as [|c a IH]; simpl; [done|]. rewrite IH. by destruct (uri_char_ok c). Qed.

Lemma quote_safe_uri_char (c : ascii) : Py.quote_safe c = true -> uri_char_ok c = true.
Proof. destruct c as [[] [] [] [] [] [] [] []]; vm_compute; congruence. Qed.

Lemma hex_digit_uri_char (n : nat) : n < 16 -> uri_char_ok (Py.hex_digit n) = true.
Proof. intros Hn. do 16 (destruct n as [|n]; [reflexivity|]). lia. Qed.

(** [quote] never leaves a character that makes an IRI invalid. *)
Lemma quote_valid (s : string) : _is_valid_uri (Py.quote s) = true.
Proof.
  induction s as [|c s IH]; [done|].
  pose proof (nat_ascii_bounded c) as Hc.
  cbn [Py.quote]. destruct (Py.quote_safe c) eqn:Hq; cbn [_is_valid_uri].
  - by rewrite quote_safe_uri_char, IH.
  - rewrite !hex_digit_uri_char, IH; [done| |]; unfold Py.code.
    + apply Nat.mod_upper_bound. lia.
    + apply Nat.Div0.div_lt_upper_bound. lia.
Qed.

Lemma deb_pkg_uri_ok (a b : string) : n3_ok (Debian.pkg_uri a b) = true.
Proof. cbn. rewrite valid_uri_app, quote_valid. reflexivity. Qed.

Lemma rpm_pkg_uri_ok (d : Rpm.pkg_data) : n3_ok (Rpm.pkg_uri d) = true.
Proof. cbn. rewrite valid_uri_app, quote_valid. reflexivity. Qed.

Lemma rpm_emit_package_n3 (d : Rpm.pkg_data) :
  adds (fun t => triple_n3_ok t = true) (Rpm.emit_package d).
Proof.
  unfold Rpm.emit_package. adds_tac;
    unfold triple_n3_ok, subj, pred, obj; cbn [fst snd];
    rewrite ?rpm_pkg_uri_ok; reflexivity.
Qed.

(* ------------------------------------------------------------------ *)
(** ** The dependency grammar parser *)

(** C4: the parser on the three examples of the specification:
    ["a (>= 1.0) | b, c"] gives [[(a, ">= 1.0"); (c, None)]] (the second
    alternative [b] is dropped), [""] gives [[]] and ["pkgname"] gives
    [[(pkgname, None)]]. *)
Theorem parse_dependency_string_examples :
  Dep._parse_dependency_string "a (>= 1.0) | b, c"
    = Some [("a", Some ">= 1.0"); ("c", None)] /\
  Dep._parse_dependency_string "" = Some [] /\
  Dep._parse_dependency_string "pkgname" = Some [("pkgname", None)].
Proof. split; [|split]; vm_compute; reflexivity. Qed.

Lemma split_on_not_nil (sep : ascii) (s : string) : Py.split_on sep s <> [].
Proof.
  destruct s as [|c s']; cbn; [discriminate|].
  destruct (Py.ch_eqb c sep); [discriminate|].
  destruct (Py.split_on sep s'); discriminate.
Qed.

Lemma first_alternative_some (part : string) :
  Dep.first_alternative part
  = Some (Py.strip (default EmptyString (head (Py.split_on "|"%char part)))).
Proof.
  unfold Dep.first_alternative.
  pose proof (split_on_not_nil "|"%char part) as Hne.
  destruct (Py.split_on "|"%char part); [done|reflexivity].
Qed.

Lemma parse_parts_omap (parts : list string) :
  Dep.parse_parts parts
  = Some (omap (fun part => Dep.dep_match
                  (Py.strip (default EmptyString (head (Py.split_on "|"%char part)))))
               parts).
Proof.
  induction parts as [|part parts IH]; [reflexivity|].
  cbn [Dep.parse_parts]. rewrite first_alternative_some, IH. cbn.
  destruct (Dep.dep_match _); reflexivity.
Qed.

(** C7: the parser is a total function that never raises (the
    [alternatives[0]] index always exists, so the result is [Some]), its
    result keeps, in order, the match of the first alternative of each
    comma-separated clause and drops the clauses whose first alternative
    does not match; with no matching clause the result is empty. *)
Theorem parse_dependency_string_never_raises (dep_string : string) :
  Dep._parse_dependency_string dep_string
  = Some (omap (fun part => Dep.dep_match
                  (Py.strip (default EmptyString (head (Py.split_on "|"%char part)))))
               (Py.split_on ","%char dep_string)) /\
  (Forall (fun part => Dep.dep_match
             (Py.strip (default EmptyString (head (Py.split_on "|"%char part)))) = None)
          (Py.split_on ","%char dep_string) ->
   Dep._parse_dependency_string dep_string = Some []).
Proof.
  unfold Dep._parse_dependency_string. rewrite parse_parts_omap.
  split; [reflexivity|]. intros Hall. f_equal.
  induction Hall as [|part parts Hp _ IH]; [reflexivity|].
  cbn. rewrite Hp. exact IH.
Qed.

Lemma parse_dependency_string_never_raises_witness :
  Forall (fun part => Dep.dep_match
            (Py.strip (default EmptyString (head (Py.split_on "|"%char part)))) = None)
         (Py.split_on ","%char "(x), |y") /\
  Dep._parse_dependency_string "(x), |y" = Some [].
Proof.
  assert (H : Forall (fun part => Dep.dep_match
            (Py.strip (default EmptyString (head (Py.split_on "|"%char part)))) = None)
         (Py.split_on ","%char "(x), |y")).
  { vm_compute. repeat constructor. }
  split; [exact H|].
  exact (proj2 (parse_dependency_string_never_raises "(x), |y") H).
Defined.

(* ------------------------------------------------------------------ *)
(** ** Manifest linking *)

(** C5: with the name index [{"foo": uri_foo}] the manifest line
    ["/usr/bin/foo  somegroup/foo,bar"] adds exactly the triple
    [(uri_foo, deb:fileName, "/usr/bin/foo")], on the single-threaded path
    and in a worker (whose serializer accepts the graph when [uri_foo] is
    a valid IRI, as every IRI of the index built by [_build_package_map]
    is, see [deb_pkg_uri_ok]); [bar] is not in the index and is skipped
    without an error; a line with fewer than two whitespace-separated
    fields adds nothing. *)
Theorem manifest_line_links_known_package (uri_foo : term) (s : st) :
  Debian._process_contents_single_threaded ["/usr/bin/foo  somegroup/foo,bar"]
    {[ "foo" := uri_foo ]} s
  = Ok tt (mkSt (graph_add (uri_foo, URI (Debian.DEB +:+ "fileName"), Lit "/usr/bin/foo")
                           (g s))
                (next_bnode s) (stderr s)) /\
  Debian._process_contents_chunk ["/usr/bin/foo  somegroup/foo,bar"] 0
    {[ "foo" := uri_foo ]}
  = (if n3_ok uri_foo
     then inr [(uri_foo, URI (Debian.DEB +:+ "fileName"), Lit "/usr/bin/foo")]
     else inl SerializeError) /\
  (forall (pkg_map : pkg_map_t) (line : string) (s' : st),
     length (Py.split_ws (Py.strip line)) < 2 ->
     Debian.process_contents_line pkg_map line s' = Ok tt s').
Proof.
  split; [|split].
  - vm_compute. reflexivity.
  - unfold Debian._process_contents_chunk, run_worker.
    replace (mfor _ _ empty_st)
      with (Ok tt (mkSt [(uri_foo, URI (Debian.DEB +:+ "fileName"), Lit "/usr/bin/foo")] 0 []))
      by (vm_compute; reflexivity).
    cbn [g]. unfold serialize_ok, forallb, triple_n3_ok, subj, pred, obj. cbn [fst snd].
    destruct (n3_ok uri_foo); reflexivity.
  - intros pkg_map line s' Hlt. unfold Debian.process_contents_line.
    apply Nat.ltb_lt in Hlt. rewrite Hlt. reflexivity.
Qed.

Lemma manifest_line_links_known_package_witness :
  length (Py.split_ws (Py.strip "/usr/bin/lonely")) < 2 /\
  Debian.process_contents_line {[ "foo" := URI "u" ]} "/usr/bin/lonely" empty_st
  = Ok tt empty_st.
Proof.
  assert (H : length (Py.split_ws (Py.strip "/usr/bin/lonely")) < 2)
    by (vm_compute; lia).
  split; [exact H|].
  exact (proj2 (proj2 (manifest_line_links_known_package (URI "u") empty_st))
               {[ "foo" := URI "u" ]} "/usr/bin/lonely" empty_st H).
Defined.

(** A decidable proposition on concrete data, by evaluation. *)
Ltac by_vm_decide :=
  match goal with |- ?P => apply (bool_decide_unpack P); vm_compute; reflexivity end.

(* ------------------------------------------------------------------ *)
(** ** The single-threaded fast path of [collect_parallel] *)

Lemma collect_parallel_fast_path {A} (self : collector) (packages : list A) f s :
  use_single_threaded self (length packages) = true ->
  collect_parallel self packages f s = Ok (length packages) s.
Proof. intros H. unfold collect_parallel. rewrite H. reflexivity. Qed.

(** C1 (defect): [collect_parallel] returns on its fast path without
    calling [process_chunk_func]; [RpmCollector.collect] calls it directly,
    so with the default settings (parallel, chunk size 1000) a repository
    of one package leaves the graph empty, while the chunked path
    (chunk size 1) adds the package's triples. *)
Theorem rpm_fast_path_emits_no_triples :
  (exists s, Rpm.collect (mkCollector "r" true 1000 4) (Some [rpm_foo]) None None empty_st
             = Ok 1 s /\ g s = []) /\
  (exists s, Rpm.collect (mkCollector "r" true 1 4) (Some [rpm_foo]) None None empty_st
             = Ok 1 s /\ (rpm_foo_uri, RDF_type, URI (Rpm.RPM +:+ "RpmPackage")) ∈ g s).
Proof.
  split.
  - exists (res_st (Rpm.collect (mkCollector "r" true 1000 4) (Some [rpm_foo]) None None
                      empty_st)).
    split; vm_compute; reflexivity.
  - exists (res_st (Rpm.collect (mkCollector "r" true 1 4) (Some [rpm_foo]) None None
                      empty_st)).
    split; [vm_compute; reflexivity|].
    by_vm_decide.
Qed.

(* ------------------------------------------------------------------ *)
(** ** Flat attribute emission of Debian packages *)

(** C3 (defect): for the stanza [Package: foo / Version: 1.0 / Depends: bar]
    both the single-threaded emitter and the worker add the flat literal
    triple [(foo-1.0, deb:depends, "bar")] next to the structured
    dependency node [(foo-1.0, deb:depends, _:b)], [(_:b, deb:packageName,
    "bar")]. *)
Theorem debian_depends_emitted_as_flat_literal :
  (exists s b,
     Debian._process_packages_single_threaded [deb_foo] "bookworm" "stable" "Debian"
       empty_st = Ok 1 s /\
     (Debian.pkg_uri "foo" "1.0", URI (Debian.DEB +:+ "depends"), Lit "bar") ∈ g s /\
     (Debian.pkg_uri "foo" "1.0", URI (Debian.DEB +:+ "depends"), b) ∈ g s /\
     (b, URI (Debian.DEB +:+ "packageName"), Lit "bar") ∈ g s) /\
  (exists pg,
     Debian._process_package_chunk [deb_foo] 0 "bookworm" "stable" "Debian" = inr pg /\
     (Debian.pkg_uri "foo" "1.0", URI (Debian.DEB +:+ "depends"), Lit "bar") ∈ pg).
Proof.
  split.
  - exists (mkSt (res_st (Debian._process_packages_single_threaded [deb_foo]
                            "bookworm" "stable" "Debian" empty_st)).(g) 1 []), (BNode 0).
    split; [vm_compute; reflexivity|].
    split; [|split]; by_vm_decide.
  - exists (match Debian._process_package_chunk [deb_foo] 0 "bookworm" "stable" "Debian"
            with inr pg => pg | inl _ => [] end).
    split; [vm_compute; reflexivity|].
    by_vm_decide.
Qed.

(* ------------------------------------------------------------------ *)
(** ** Identity collisions *)

Lemma quote_app (s1 s2 : string) :
  Py.quote (s1 +:+ s2) = Py.quote s1 +:+ Py.quote s2.
Proof.
  induction s1 as [|c s1 IH]; [reflexivity|].
  change (String c s1 +:+ s2) with (String c (s1 +:+ s2)). cbn [Py.quote].
  rewrite IH. destruct (Py.quote_safe c); reflexivity.
Qed.

Lemma string_app_assoc (a b c : string) : a +:+ (b +:+ c) = (a +:+ b) +:+ c.
Proof.
  induction a as [|x a IH]; [reflexivity|].
  change (String x (a +:+ (b +:+ c)) = String x ((a +:+ b) +:+ c)). by rewrite IH.
Qed.

Lemma string_app_length (a b : string) :
  String.length (a +:+ b) = String.length a + String.length b.
Proof.
  induction a as [|x a IH]; [reflexivity|].
  change (S (String.length (a +:+ b)) = S (String.length a + String.length b)).
  by rewrite IH.
Qed.

(** C9 (as stated, false): the two packages [("a-1", "2")] and
    [("a", "1-2")] share one URI but stay two entries of the Debian name
    index, one per name. *)
Lemma name_index_keeps_both_colliding_names :
  match Debian._build_package_map [deb_pkg "a-1" "2"; deb_pkg "a" "1-2"] empty_st with
  | Ok m _ => size m = 2 /\ m !! "a-1" = m !! "a" /\ is_Some (m !! "a")
  | Raise _ _ => False
  end.
Proof. vm_compute. split; [reflexivity|]. split; [reflexivity|]. eexists; reflexivity. Qed.

(** C9 (amended): fields are joined with [-] before percent-encoding and
    [-] is kept by [quote], so [(a-b, c)] and [(a, b-c)] get the same
    Debian URI (their triples land on one node) and the RPM URI of a
    [name-version-release.arch] tuple collides the same way; the Debian
    name index still holds one entry per name, both entries mapping to
    that URI. *)
Theorem package_identity_not_injective (a b c : string) :
  Debian.pkg_uri (a +:+ "-" +:+ b) c = Debian.pkg_uri a (b +:+ "-" +:+ c) /\
  (forall rel ar pid, Rpm.pkg_uri (Rpm.mkPkgData (Some (a +:+ "-" +:+ b)) (Some c) rel ar
                                    None None pid None)
                      = Rpm.pkg_uri (Rpm.mkPkgData (Some a) (Some (b +:+ "-" +:+ c)) rel ar
                                    None None pid None)) /\
  (a +:+ "-" +:+ b, c) <> (a, b +:+ "-" +:+ c) /\
  Debian._build_package_map [deb_pkg (a +:+ "-" +:+ b) c; deb_pkg a (b +:+ "-" +:+ c)]
    empty_st
  = Ok (<[a := Debian.pkg_uri a (b +:+ "-" +:+ c)]>
          {[ a +:+ "-" +:+ b := Debian.pkg_uri a (b +:+ "-" +:+ c) ]}) empty_st.
Proof.
  assert (Huri : Debian.pkg_uri (a +:+ "-" +:+ b) c = Debian.pkg_uri a (b +:+ "-" +:+ c)).
  { unfold Debian.pkg_uri. f_equal. f_equal.
    rewrite <- !string_app_assoc. reflexivity. }
  split; [exact Huri|]. split; [|split].
  - intros rel ar pid. unfold Rpm.pkg_uri. cbn [Rpm.name Rpm.version Rpm.fmt].
    rewrite <- !string_app_assoc. reflexivity.
  - intros [= Ha _]. apply (f_equal String.length) in Ha.
    rewrite !string_app_length in Ha. cbn in Ha. lia.
  - unfold Debian._build_package_map, Debian.build_package_map_body. cbn [mfold].
    unfold mbind, PyM_bind, mret, PyM_ret, getitem, of_option.
    cbn -[Debian.pkg_uri insert empty].
    rewrite Huri. reflexivity.
Qed.

(* ------------------------------------------------------------------ *)
(** ** Record rejection and the name indexes *)

Lemma has_identity_get (d : dict) :
  Debian.has_identity d = true ->
  dict_get d "Package" = Some (pname d) /\ dict_get d "Version" = Some (pver d).
Proof.
  unfold Debian.has_identity, dict_has, pname, pver.
  destruct (dict_get d "Package"), (dict_get d "Version"); cbn; done.
Qed.


Lemma build_package_map_ok (pds : list dict) :
  Forall (fun d => Debian.has_identity d = true) pds ->
  forall (m0 : pkg_map_t) s,
    mfold Debian.build_package_map_body pds m0 s = Ok (fold_left index_insert pds m0) s.
Proof.
  induction 1 as [|d pds Hd _ IH]; intros m0 s; [reflexivity|].
  destruct (has_identity_get d Hd) as [Hp Hv].
  cbn [mfold]. unfold mbind at 1, PyM_bind at 1.
  unfold Debian.build_package_map_body, getitem. rewrite Hp, Hv. cbn.
  apply IH.
Qed.

Lemma index_lookup_keys (pds : list dict) (m0 : pkg_map_t) n u :
  fold_left index_insert pds m0 !! n = Some u ->
  m0 !! n = Some u \/ exists d, d ∈ pds /\ pname d = n.
Proof.
  revert m0. induction pds as [|d pds IH]; intros m0 H; cbn in H; [by left|].
  destruct (IH _ H) as [H'|(d' & Hd' & Hn)].
  - unfold index_insert in H'. destruct (decide (pname d = n)) as [<-|Hne].
    + right. exists d. split; [set_solver|done].
    + left. by rewrite lookup_insert_ne in H'.
  - right. exists d'. split; [set_solver|done].
Qed.

Lemma index_lookup_post (post : list dict) (m0 : pkg_map_t) n :
  Forall (fun d => pname d <> n) post -> fold_left index_insert post m0 !! n = m0 !! n.
Proof.
  intros H. revert m0. induction H as [|d post Hd _ IH]; intros m0; [reflexivity|].
  cbn. rewrite IH. unfold index_insert. by rewrite lookup_insert_ne.
Qed.

Lemma index_lookup_last (pre post : list dict) (d : dict) (m0 : pkg_map_t) :
  Forall (fun d' => pname d' <> pname d) post ->
  fold_left index_insert (pre ++ d :: post) m0 !! pname d
  = Some (Debian.pkg_uri (pname d) (pver d)).
Proof.
  intros Hpost. rewrite fold_left_app. cbn.
  rewrite index_lookup_post by exact Hpost. unfold index_insert.
  apply lookup_insert_eq.
Qed.

Lemma parse_packages_identity (content : string) :
  Forall (fun d => Debian.has_identity d = true) (Debian.parse_packages content).
Proof.
  apply Forall_forall. intros d Hd.
  unfold Debian.parse_packages in Hd. apply list_elem_of_filter in Hd. tauto.
Qed.


Lemma no_raise_ret {A} (a : A) : no_raise (mret a).
Proof. intros s. eauto. Qed.

Lemma no_raise_add x : no_raise (add x).
Proof. intros s. eexists _, _. reflexivity. Qed.

Lemma no_raise_new_bnode : no_raise new_bnode.
Proof. intros s. eexists _, _. reflexivity. Qed.

Lemma no_raise_bind {A B} (m : PyM A) (k : A -> PyM B) :
  no_raise m -> (forall a, no_raise (k a)) -> no_raise (m ≫= k).
Proof.
  intros Hm Hk s. destruct (Hm s) as (a & s' & E).
  unfold mbind, PyM_bind. rewrite E. apply Hk.
Qed.

Lemma no_raise_mfor {A} (l : list A) (body : A -> PyM unit) :
  (forall x, no_raise (body x)) -> no_raise (mfor l body).
Proof.
  intros Hb. induction l as [|x l IH]; cbn; [apply no_raise_ret|].
  apply no_raise_bind; auto.
Qed.

Ltac no_raise_tac :=
  repeat (cbn beta iota zeta;
          match goal with
          | |- no_raise (mbind _ _) => apply no_raise_bind; [|intros ?]
          | |- no_raise (mfor _ _) => apply no_raise_mfor; intros ?
          | |- no_raise (add _) => apply no_raise_add
          | |- no_raise new_bnode => apply no_raise_new_bnode
          | |- no_raise (mret _) => apply no_raise_ret
          | |- no_raise (if _ then _ else _) => case_match
          | |- no_raise (match _ with _ => _ end) => case_match
          end).

Lemma rpm_emit_package_no_raise (d : Rpm.pkg_data) : no_raise (Rpm.emit_package d).
Proof. unfold Rpm.emit_package. no_raise_tac. Qed.

Lemma in_after_add {A} (x : triple) (k : unit -> PyM A) s :
  adds (fun _ => True) (k tt) -> x ∈ g (res_st ((add x ≫= k) s)).
Proof.
  intros Hk. unfold mbind, PyM_bind. cbn.
  apply (Hk _ x). cbn. apply elem_of_graph_add. by left.
Qed.

Lemma rpm_package_chunk_type (d : Rpm.pkg_data) :
  exists pg, Rpm._process_package_chunk [d] 0 = inr pg /\
             (Rpm.pkg_uri d, RDF_type, URI (Rpm.RPM +:+ "RpmPackage")) ∈ pg.
Proof.
  assert (Hin : (Rpm.pkg_uri d, RDF_type, URI (Rpm.RPM +:+ "RpmPackage"))
                ∈ g (res_st (Rpm.emit_package d empty_st))).
  { unfold Rpm.emit_package. cbn zeta. apply in_after_add. adds_tac. }
  destruct (rpm_emit_package_no_raise d empty_st) as ([] & s0 & E).
  rewrite E in Hin. exists (g s0). split; [|exact Hin].
  unfold Rpm._process_package_chunk. apply (run_worker_ok _ tt).
  - apply adds_mfor. intros x _. apply rpm_emit_package_n3.
  - cbn [mfor]. unfold mbind at 1, PyM_bind at 1. rewrite E. reflexivity.
Qed.

Lemma rpm_index_keeps_key (l : list Rpm.pkg_data) (m0 : Rpm.rpm_map_t) k :
  is_Some (m0 !! k) ->
  is_Some (fold_left (fun m d => <[Rpm.pkgid d := Rpm.pkg_uri d]> m) l m0 !! k).
Proof.
  revert m0. induction l as [|d l IH]; intros m0 H; cbn; [done|].
  apply IH. destruct (decide (Rpm.pkgid d = k)) as [->|Hne].
  - rewrite lookup_insert_eq. by eexists.
  - by rewrite lookup_insert_ne.
Qed.

Lemma rpm_index_has_key (l : list Rpm.pkg_data) (m0 : Rpm.rpm_map_t) d :
  d ∈ l -> is_Some (Rpm._build_package_map l !! Rpm.pkgid d).
Proof.
  unfold Rpm._build_package_map. generalize (∅ : Rpm.rpm_map_t) as m.
  induction l as [|d' l IH]; intros m Hd; [set_solver|].
  cbn. apply elem_of_cons in Hd as [->|Hd].
  - apply rpm_index_keeps_key. rewrite lookup_insert_eq. by eexists.
  - by apply IH.
Qed.

(** C2 (as stated, false): a [primary.xml] package without [name] and
    [version] elements is kept; its checksum [abc] is in the index, mapped
    to the identity built from empty strings. *)
Lemma rpm_entry_without_name_is_indexed :
  match Rpm._get_primary_packages_data (Some [rpm_unnamed]) empty_st with
  | Ok packages_data _ => Rpm._build_package_map packages_data !! Some "abc"
  | Raise _ _ => None
  end
  = Some (URI (Rpm.RPM +:+ "--.x86_64")).
Proof. vm_compute. reflexivity. Qed.

(** C2 (amended): a Debian stanza without [Package] or [Version] is
    dropped by [_get_packages_data]: every entry of [packages_data] (the
    only input of the emitters and of the name index) has both fields, and
    the index has no other keys.  An RPM package element is not rejected:
    a missing [name] element becomes the empty name, a missing [version]
    element the empty version (and release), the entry stays in
    [packages_data], its checksum is a key of the index, and the chunk
    worker gives it an identity and triples. *)
Theorem record_rejection_debian_only :
  (forall content : string,
     Forall (fun d => Debian.has_identity d = true) (Debian.parse_packages content) /\
     (forall raw, Debian.has_identity (Debian.parse_stanza raw) = false ->
                  Debian.parse_stanza raw ∉ Debian.parse_packages content) /\
     (forall s, exists m,
        Debian._build_package_map (Debian.parse_packages content) s = Ok m s /\
        forall n u, m !! n = Some u ->
          exists d, d ∈ Debian.parse_packages content /\ dict_get d "Package" = Some n)) /\
  (forall (pkgs : list Rpm.pkg_elem) (e : Rpm.pkg_elem) (s : st),
     e ∈ pkgs -> Rpm.e_name e = None \/ Rpm.e_version e = None ->
     exists packages_data,
       Rpm._get_primary_packages_data (Some pkgs) s = Ok packages_data s /\
       Rpm.to_pkg_data e ∈ packages_data /\
       (Rpm.e_name e = None -> Rpm.name (Rpm.to_pkg_data e) = Some "") /\
       (Rpm.e_version e = None ->
          Rpm.version (Rpm.to_pkg_data e) = Some "" /\ Rpm.release (Rpm.to_pkg_data e) = Some "") /\
       is_Some (Rpm._build_package_map packages_data !! Rpm.pkgid (Rpm.to_pkg_data e)) /\
       exists pg, Rpm._process_package_chunk [Rpm.to_pkg_data e] 0 = inr pg /\
         (Rpm.pkg_uri (Rpm.to_pkg_data e), RDF_type, URI (Rpm.RPM +:+ "RpmPackage")) ∈ pg).
Proof.
  split.
  - intros content. pose proof (parse_packages_identity content) as Hid.
    split; [exact Hid|]. split.
    + intros raw Hraw Hin. rewrite Forall_forall in Hid.
      specialize (Hid _ Hin). congruence.
    + intros s. eexists. split.
      * unfold Debian._build_package_map. apply build_package_map_ok, Hid.
      * intros n u Hl. destruct (index_lookup_keys _ _ n u Hl) as [H0|(d & Hd & Hn)].
        { by rewrite lookup_empty in H0. }
        exists d. split; [exact Hd|]. rewrite Forall_forall in Hid.
        destruct (has_identity_get d (Hid d Hd)) as [Hp _]. by rewrite Hp, Hn.
  - intros pkgs e s He _. exists (map Rpm.to_pkg_data pkgs).
    assert (Hd : Rpm.to_pkg_data e ∈ map Rpm.to_pkg_data pkgs).
    { apply list_elem_of_In, in_map, list_elem_of_In, He. }
    split; [reflexivity|]. split; [exact Hd|]. split; [|split; [|split]].
    + unfold Rpm.to_pkg_data. cbn. intros ->. reflexivity.
    + unfold Rpm.to_pkg_data. cbn. intros ->. split; reflexivity.
    + by apply (rpm_index_has_key _ ∅).
    + apply rpm_package_chunk_type.
Qed.

Lemma record_rejection_debian_only_witness :
  (Debian.parse_stanza "Version: 1" ∉ Debian.parse_packages "Version: 1") /\
  exists packages_data,
    Rpm._get_primary_packages_data (Some [rpm_unnamed]) empty_st = Ok packages_data empty_st /\
    Rpm.name (Rpm.to_pkg_data rpm_unnamed) = Some "" /\
    is_Some (Rpm._build_package_map packages_data !! Rpm.pkgid (Rpm.to_pkg_data rpm_unnamed)).
Proof.
  split.
  - apply (proj1 (proj2 (proj1 record_rejection_debian_only "Version: 1"))).
    vm_compute. reflexivity.
  - destruct (proj2 record_rejection_debian_only [rpm_unnamed] rpm_unnamed empty_st)
      as (pds & E & _ & Hn & _ & Hk & _).
    + set_solver.
    + left. reflexivity.
    + exists pds. split; [exact E|]. split; [apply Hn; reflexivity|exact Hk].
Defined.

(* ------------------------------------------------------------------ *)
(** ** File-ownership triples *)


Lemma contents_adds_owned (pkg_map : pkg_map_t) (lines : list string) :
  adds (owned_via pkg_map lines)
       (Debian._process_contents_single_threaded lines pkg_map).
Proof.
  apply adds_mfor. intros line Hline. unfold Debian.process_contents_line. cbn zeta.
  case_match; [apply adds_ret|].
  apply adds_mfor. intros x Hx. case_match eqn:Hl; [|apply adds_ret].
  apply adds_add. split; [reflexivity|].
  exists line, (Py.last_or EmptyString (Py.split_on "/"%char x)).
  split; [exact Hline|]. split; [|exact Hl].
  unfold manifest_names. rewrite list_elem_of_In, in_map_iff.
  exists x. split; [reflexivity|]. apply list_elem_of_In, Hx.
Qed.

(** C10 (as stated, false): with stanzas [a 1-2], [a 3] and [a-1 2] the
    index maps [a] to the node of version [3], yet the manifest line
    [/f a-1] attaches the file to the node of [a 1-2], an earlier version
    of [a], through the identity shared with [a-1 2]. *)
Lemma earlier_version_gets_file :
  c10_map !! "a" = Some (Debian.pkg_uri "a" "3") /\
  (Debian.pkg_uri "a" "1-2", URI (Debian.DEB +:+ "fileName"), Lit "/f")
    ∈ g (res_st (Debian._process_contents_single_threaded ["/f a-1"] c10_map empty_st)).
Proof. split; by_vm_decide. Qed.

(** C10 (amended): the name index maps each name to the node of the last
    stanza with that name, and every triple [_process_contents_single_threaded]
    adds is a [fileName] triple whose subject is the index entry of a
    cleaned name on one of the manifest lines. *)
Theorem name_index_last_stanza_wins
    (pds pre post : list dict) (d : dict) (lines : list string) (s : st) :
  Forall (fun d' => Debian.has_identity d' = true) pds ->
  pds = pre ++ d :: post ->
  Forall (fun d' => pname d' <> pname d) post ->
  exists m, Debian._build_package_map pds s = Ok m s /\
    m !! pname d = Some (Debian.pkg_uri (pname d) (pver d)) /\
    forall s0, (forall t, t ∈ g s0 -> t ∈ g (res_st (Debian._process_contents_single_threaded lines m s0))) /\
      forall t, t ∈ g (res_st (Debian._process_contents_single_threaded lines m s0)) -> t ∉ g s0 ->
        pred t = URI (Debian.DEB +:+ "fileName") /\
        exists line n, line ∈ lines /\ n ∈ manifest_names line /\ m !! n = Some (subj t).
Proof.
  intros Hid -> Hpost. exists (fold_left index_insert (pre ++ d :: post) ∅).
  split; [unfold Debian._build_package_map; by apply build_package_map_ok|].
  split; [by apply index_lookup_last|].
  intros s0. pose proof (contents_adds_owned (fold_left index_insert (pre ++ d :: post) ∅) lines s0)
    as Hadd.
  split; [intros t; apply (Hadd t)|]. intros t Ht Hn.
  destruct (proj2 (Hadd t) Ht) as [Hin|Hp]; [contradiction|exact Hp].
Qed.

Lemma name_index_last_stanza_wins_witness :
  exists m, Debian._build_package_map c10_pkgs empty_st = Ok m empty_st /\
    m !! "a" = Some (Debian.pkg_uri "a" "3").
Proof.
  destruct (name_index_last_stanza_wins c10_pkgs [deb_pkg "a" "1-2"] [deb_pkg "a-1" "2"]
              (deb_pkg "a" "3") [] empty_st) as (m & Hm & Hl & _).
  - repeat constructor.
  - reflexivity.
  - repeat constructor. vm_compute. discriminate.
  - exists m. split; [exact Hm | exact Hl].
Defined.

(* ------------------------------------------------------------------ *)
(** ** The collectors touch the graph only through [add] *)

Lemma adds_fetch P http_get url : adds P (Debian.fetch http_get url).
Proof. unfold Debian.fetch. destruct (http_get url); auto with adds. Qed.

Lemma adds_release_info P http_get self : adds P (Debian._get_release_info http_get self).
Proof.
  intros s t. unfold Debian._get_release_info.
  destruct (http_get (Debian.release_url self)) as [e|text].
  - destruct (Debian.is_request_exception e); [|cbn; tauto].
    exact (adds_bind P _ _ (adds_echo_err P _) (fun _ => adds_raise P _) s t).
  - repeat case_match; cbn; tauto.
Qed.

Lemma adds_packages_data P http_get self : adds P (Debian._get_packages_data http_get self).
Proof. apply adds_bind; [apply adds_fetch | intros; apply adds_ret]. Qed.

Lemma adds_try_http P (body handler : PyM unit) :
  adds P body -> adds P handler -> adds P (Debian.try_http body handler).
Proof.
  intros Hb Hh s t. unfold Debian.try_http. destruct (Hb s t) as [H1 H2].
  destruct (body s) as [a s'|e s'] eqn:E; [tauto|].
  destruct e; try tauto. destruct (Hh s' t). cbn in *. naive_solver.
Qed.

Lemma adds_getitem P d k : adds P (getitem d k).
Proof. apply adds_of_option. Qed.

#[export] Hint Resolve adds_fetch adds_release_info adds_packages_data adds_getitem : adds.

Lemma adds_metadata cn su og : adds (fun _ => True) (Debian._add_distribution_metadata cn su og).
Proof. unfold Debian._add_distribution_metadata. adds_tac; auto with adds. Qed.

Lemma adds_deb_emit_package c d : adds (fun _ => True) (Debian.emit_package c d).
Proof. unfold Debian.emit_package. adds_tac; auto with adds. Qed.

Lemma adds_deb_packages pds cn su og :
  adds (fun _ => True) (Debian._process_packages_single_threaded pds cn su og).
Proof.
  unfold Debian._process_packages_single_threaded.
  apply adds_bind; [|intros; apply adds_ret].
  apply adds_mfor. intros. apply adds_deb_emit_package.
Qed.

Lemma worker_adds_true {A} (f : list A -> nat -> exc + graph) : worker_adds (fun _ => True) f.
Proof. intros ? ? ? ? ? ? ?. exact I. Qed.

(** Every triple added by the Contents phase is a [fileName] triple. *)
Lemma adds_contents_parallel (P : triple -> Prop) http_get self pkg_map :
  (forall t, pred t = URI (Debian.DEB +:+ "fileName") -> P t) ->
  adds P (Debian._process_contents_parallel http_get self pkg_map).
Proof.
  intros HP. unfold Debian._process_contents_parallel.
  apply adds_try_http; [|apply adds_echo_err].
  apply adds_bind; [apply adds_fetch|intros text]. cbn zeta. case_match.
  - refine (adds_weaken _ _ _ _ (contents_adds_owned pkg_map _)).
    intros t [Ht _]. by apply HP.
  - apply adds_bind; [|intros; apply adds_ret]. apply adds_collect_parallel.
    intros c j pg Hf t off Ht. unfold Debian._process_contents_chunk_wrapper in Hf.
    destruct c as [|[l0 pm] c]; [discriminate|].
    unfold Debian._process_contents_chunk in Hf.
    destruct (run_worker_adds _ _ _ (contents_adds_owned pm (map fst ((l0, pm) :: c))) Hf t Ht)
      as [Hp _].
    apply HP. exact Hp.
Qed.

Lemma adds_build_package_map P pds : adds P (Debian._build_package_map pds).
Proof.
  unfold Debian._build_package_map. generalize (∅ : pkg_map_t).
  induction pds as [|d pds IH]; intros m0; cbn [mfold]; [apply adds_ret|].
  apply adds_bind; [|exact IH]. unfold Debian.build_package_map_body.
  adds_tac; auto with adds.
Qed.

Lemma adds_deb_collect http_get self : adds (fun _ => True) (Debian.collect http_get self).
Proof.
  unfold Debian.collect. apply adds_bind; [apply adds_release_info|intros ri].
  case_match; [|apply adds_bind; auto with adds].
  repeat case_match. subst.
  apply adds_bind; [apply adds_metadata|intros _].
  apply adds_bind; [apply adds_packages_data|intros pds].
  apply adds_bind; [case_match; [apply adds_deb_packages|apply adds_collect_parallel, worker_adds_true]|intros cnt].
  apply adds_bind; [apply adds_build_package_map|intros m].
  apply adds_bind; [apply adds_contents_parallel; done|intros; apply adds_ret].
Qed.

Lemma adds_rpm_collect self primary filelists other :
  adds (fun _ => True) (Rpm.collect self primary filelists other).
Proof.
  unfold Rpm.collect, Rpm._get_primary_packages_data, Rpm._process_filelists_parallel,
    Rpm._process_other_parallel.
  adds_tac; auto using worker_adds_true with adds.
Qed.

Lemma adds_keeps {A} P (m : PyM A) s t : adds P m -> t ∈ g s -> t ∈ g (res_st (m s)).
Proof. intros Hm. apply (Hm s t). Qed.

Lemma pipeline_step_keeps s s' : pipeline_step s s' -> forall t, t ∈ g s -> t ∈ g s'.
Proof.
  intros Hs t Ht. destruct Hs; refine (adds_keeps (fun _ => True) _ _ t _ Ht).
  - apply adds_metadata.
  - apply adds_release_info.
  - apply adds_packages_data.
  - apply adds_deb_packages.
  - apply adds_graph_parse. intros; exact I.
  - apply adds_collect_parallel, worker_adds_true.
  - apply adds_build_package_map.
  - refine (adds_weaken _ _ _ _ (contents_adds_owned _ _)). intros; exact I.
  - apply adds_contents_parallel. intros; exact I.
  - apply adds_deb_collect.
  - apply adds_rpm_collect.
Qed.

(** C8: the combined graph grows monotonically: along any sequence of
    pipeline operations (distribution metadata, package emission, chunk
    merge, the name index, manifest linking, and whole [collect()] runs of
    either collector), every triple present before is still present
    after, whether the operations return or raise. *)
Theorem combined_graph_monotone (s s' : st) :
  rtc pipeline_step s s' -> forall t, t ∈ g s -> t ∈ g s'.
Proof.
  induction 1 as [s|s s1 s' Hstep _ IH]; intros t Ht; [exact Ht|].
  apply IH, (pipeline_step_keeps s s1 Hstep), Ht.
Qed.

Lemma combined_graph_monotone_witness :
  (URI (Debian.DEB +:+ "o"), RDF_type, URI (Debian.DEB +:+ "Distribution"))
    ∈ g (res_st (Debian._process_packages_single_threaded [deb_foo] "c" "s" "o"
           (res_st (Debian._add_distribution_metadata "c" "s" "o" empty_st)))).
Proof.
  apply (combined_graph_monotone (res_st (Debian._add_distribution_metadata "c" "s" "o" empty_st))).
  - apply rtc_once, step_package_emission.
  - by_vm_decide.
Defined.

(** C6 (as stated, false): a transport error that is not an HTTP error
    status, such as a connection failure, on the Contents URL only makes
    [collect()] raise, while the same run with the manifest available
    returns the package count [1]. *)
Lemma contents_connection_error_aborts :
  Debian.collect (c6_http (inl ConnectionError)) c6_repo empty_st
    = Raise ConnectionError (res_st (Debian.collect (c6_http (inl ConnectionError)) c6_repo empty_st)) /\
  Debian.collect c6_manifest_ok c6_repo empty_st
    = Ok 1 (res_st (Debian.collect c6_manifest_ok c6_repo empty_st)).
Proof. split; vm_compute; reflexivity. Qed.

(** C6 (amended): suppose the other requests behave as in a successful
    run.  When the Contents fetch raises [HTTPError] (an error status),
    [collect()] returns the same count, its graph is that of the
    successful run without some [fileName] triples, and the warning is the
    last line on stderr.  When it raises any other exception (a
    [ConnectionError] or [Timeout], modelled as [ConnectionError]), the
    exception propagates: [collect()] raises it. *)
Theorem contents_http_error_degrades (h1 h2 : string -> exc + string)
    (self : Debian.debian) (s s2 : st) (n : nat) :
  (forall u, u <> Debian.contents_url self -> h1 u = h2 u) ->
  Debian.release_url self <> Debian.contents_url self ->
  Debian.packages_url self <> Debian.contents_url self ->
  Debian.collect h2 self s = Ok n s2 ->
  (h1 (Debian.contents_url self) = inl HTTPError ->
   exists s1, Debian.collect h1 self s = Ok n s1 /\
     (forall t, t ∈ g s1 -> t ∈ g s2) /\
     (forall t, t ∈ g s2 -> t ∉ g s1 -> pred t = URI (Debian.DEB +:+ "fileName")) /\
     exists pre, stderr s1 = pre ++ [Debian.contents_warning self]) /\
  (forall e, e <> HTTPError -> h1 (Debian.contents_url self) = inl e ->
   exists s1, Debian.collect h1 self s = Raise e s1).
Proof.
  intros Hag Hr Hp H2.
  assert (Erel : forall s0, Debian._get_release_info h1 self s0 = Debian._get_release_info h2 self s0).
  { intros s0. unfold Debian._get_release_info. by rewrite (Hag _ Hr). }
  assert (Epk : forall s0, Debian._get_packages_data h1 self s0 = Debian._get_packages_data h2 self s0).
  { intros s0. unfold Debian._get_packages_data, Debian.fetch. by rewrite (Hag _ Hp). }
  remember (Debian.collect h1 self s) as r eqn:Er.
  unfold Debian.collect in H2, Er.
  unfold mbind at 1, PyM_bind at 1 in H2. unfold mbind at 1, PyM_bind at 1 in Er.
  rewrite Erel in Er.
  destruct (Debian._get_release_info h2 self s) as [ri s3|e3 s3]; [|discriminate].
  destruct ri as [[[cn su] og]|]; [|cbn in H2; discriminate].
  unfold mbind at 1, PyM_bind at 1 in H2. unfold mbind at 1, PyM_bind at 1 in Er.
  destruct (Debian._add_distribution_metadata cn su og s3) as [[] s4|e4 s4]; [|discriminate].
  unfold mbind at 1, PyM_bind at 1 in H2. unfold mbind at 1, PyM_bind at 1 in Er.
  rewrite Epk in Er.
  destruct (Debian._get_packages_data h2 self s4) as [pds s5|e5 s5]; [|discriminate].
  unfold mbind at 1, PyM_bind at 1 in H2. unfold mbind at 1, PyM_bind at 1 in Er.
  match type of H2 with context [match ?m s5 with Ok _ _ => _ | Raise _ _ => _ end] =>
    destruct (m s5) as [cnt s6|e6 s6]; [|discriminate] end.
  unfold mbind at 1, PyM_bind at 1 in H2. unfold mbind at 1, PyM_bind at 1 in Er.
  destruct (Debian._build_package_map pds s6) as [m s7|e7 s7]; [|discriminate].
  unfold mbind at 1, PyM_bind at 1 in H2. unfold mbind at 1, PyM_bind at 1 in Er.
  subst r. split; [intros Hc|intros e He Hc].
  - assert (Ec1 : Debian._process_contents_parallel h1 self m s7
                  = Ok tt (mkSt (g s7) (next_bnode s7) (stderr s7 ++ [Debian.contents_warning self]))).
    { unfold Debian._process_contents_parallel, Debian.try_http, Debian.fetch.
      unfold mbind, PyM_bind. rewrite Hc. reflexivity. }
    rewrite Ec1.
    pose proof (adds_contents_parallel (fun t => pred t = URI (Debian.DEB +:+ "fileName"))
                  h2 self m (fun _ H => H) s7) as Hadd.
    destruct (Debian._process_contents_parallel h2 self m s7) as [[] s8|e8 s8]; [|discriminate].
    cbn in H2. injection H2 as <- <-.
    eexists. split; [reflexivity|]. cbn [g stderr]. split; [|split].
    + intros t Ht. apply (Hadd t), Ht.
    + intros t Ht Hn. destruct (proj2 (Hadd t) Ht) as [?|?]; [contradiction|assumption].
    + by eexists.
  - assert (Ec2 : Debian._process_contents_parallel h1 self m s7 = Raise e s7).
    { unfold Debian._process_contents_parallel, Debian.try_http, Debian.fetch.
      unfold mbind, PyM_bind. rewrite Hc. destruct e; [congruence|reflexivity..]. }
    rewrite Ec2. by eexists.
Qed.

Lemma contents_http_error_degrades_witness :
  (exists s1,
     Debian.collect (fun u => if String.eqb u (Debian.contents_url c6_repo) then inl HTTPError
                              else c6_manifest_ok u) c6_repo empty_st = Ok 1 s1 /\
     exists pre, stderr s1 = pre ++ [Debian.contents_warning c6_repo]) /\
  exists s1,
    Debian.collect (fun u => if String.eqb u (Debian.contents_url c6_repo) then inl ConnectionError
                             else c6_manifest_ok u) c6_repo empty_st = Raise ConnectionError s1.
Proof.
  split.
  - destruct (contents_http_error_degrades
                (fun u => if String.eqb u (Debian.contents_url c6_repo) then inl HTTPError
                          else c6_manifest_ok u)
                c6_manifest_ok c6_repo empty_st
                (res_st (Debian.collect c6_manifest_ok c6_repo empty_st)) 1) as [Hh _].
    + intros u Hu. apply String.eqb_neq in Hu. rewrite Hu. reflexivity.
    + vm_compute. discriminate.
    + vm_compute. discriminate.
    + vm_compute. reflexivity.
    + destruct Hh as (s1 & Hs1 & _ & _ & Hw); [vm_compute; reflexivity|].
      exists s1. split; [exact Hs1 | exact Hw].
  - destruct (contents_http_error_degrades
                (fun u => if String.eqb u (Debian.contents_url c6_repo) then inl ConnectionError
                          else c6_manifest_ok u)
                c6_manifest_ok c6_repo empty_st
                (res_st (Debian.collect c6_manifest_ok c6_repo empty_st)) 1) as [_ Hc].
    + intros u Hu. apply String.eqb_neq in Hu. rewrite Hu. reflexivity.
    + vm_compute. discriminate.
    + vm_compute. discriminate.
    + vm_compute. reflexivity.
    + apply (Hc ConnectionError); [discriminate|vm_compute; reflexivity].
Defined.

(* ------------------------------------------------------------------ *)
(** ** Further properties of the collectors, the checker and the tests *)
Lemma hex_digit_inj (a b : nat) : a < 16 -> b < 16 -> Py.hex_digit a = Py.hex_digit b -> a = b.
Proof.
  intros Ha Hb H. unfold Py.hex_digit, Py.chr in H.
  apply (f_equal nat_of_ascii) in H.
  destruct (a <? 10) eqn:Ea, (b <? 10) eqn:Eb; apply Nat.ltb_lt in Ea || apply Nat.ltb_ge in Ea;
    apply Nat.ltb_lt in Eb || apply Nat.ltb_ge in Eb;
    rewrite !nat_ascii_embedding in H by lia; lia.
Qed.

Lemma code_lt (c : ascii) : Py.code c < 256.
Proof. unfold Py.code. apply nat_ascii_bounded. Qed.

Lemma quote_injective (s1 s2 : string) : Py.quote s1 = Py.quote s2 -> s1 = s2.
Proof.
  revert s2. induction s1 as [|c1 s1 IH]; intros [|c2 s2] H; cbn [Py.quote] in H.
  - reflexivity.
  - destruct (Py.quote_safe c2); discriminate.
  - destruct (Py.quote_safe c1); discriminate.
  - remember (Py.code c1 / 16) as a1 eqn:Ea1. remember (Py.code c2 / 16) as a2 eqn:Ea2.
    remember (Py.code c1 mod 16) as b1 eqn:Eb1. remember (Py.code c2 mod 16) as b2 eqn:Eb2.
    destruct (Py.quote_safe c1) eqn:E1, (Py.quote_safe c2) eqn:E2; injection H as H H'.
    + subst. f_equal. by apply IH.
    + subst. discriminate.
    + subst. discriminate.
    + f_equal; [|by apply IH].
      pose proof (code_lt c1). pose proof (code_lt c2).
      apply hex_digit_inj in H; [|subst; apply Nat.Div0.div_lt_upper_bound; lia..].
      apply hex_digit_inj in H'; [|subst; apply Nat.mod_upper_bound; lia..].
      subst.
      assert (Py.code c1 = Py.code c2).
      { rewrite (Nat.div_mod_eq (Py.code c1) 16), (Nat.div_mod_eq (Py.code c2) 16). lia. }
      unfold Py.code in *. rewrite <- (ascii_nat_embedding c1), <- (ascii_nat_embedding c2). congruence.
Qed.

Lemma string_app_inj_l (p x y : string) : p +:+ x = p +:+ y -> x = y.
Proof. induction p as [|c p IH]; cbn; [done|]. intros H. injection H. exact IH. Qed.

(** Two Debian package IRIs are equal exactly when the joined
    [name-version] strings are, and two RPM package IRIs exactly when the
    joined [name-version-release.arch] strings are: [quote] loses nothing. *)
Theorem package_uri_eq_iff (a b c d : string) (r1 r2 : Rpm.pkg_data) :
  (Debian.pkg_uri a b = Debian.pkg_uri c d <-> a +:+ "-" +:+ b = c +:+ "-" +:+ d) /\
  (Rpm.pkg_uri r1 = Rpm.pkg_uri r2 <->
     Rpm.fmt (Rpm.name r1) +:+ "-" +:+ Rpm.fmt (Rpm.version r1) +:+ "-"
       +:+ Rpm.fmt (Rpm.release r1) +:+ "." +:+ Rpm.fmt (Rpm.p_arch r1)
     = Rpm.fmt (Rpm.name r2) +:+ "-" +:+ Rpm.fmt (Rpm.version r2) +:+ "-"
       +:+ Rpm.fmt (Rpm.release r2) +:+ "." +:+ Rpm.fmt (Rpm.p_arch r2)).
Proof.
  split; split.
  - unfold Debian.pkg_uri. intros H. injection H as H.
    apply quote_injective, H.
  - unfold Debian.pkg_uri. intros ->. reflexivity.
  - unfold Rpm.pkg_uri. intros H. injection H as H.
    apply quote_injective, H.
  - unfold Rpm.pkg_uri. intros ->. reflexivity.
Qed.

Lemma span_spec (p : ascii -> bool) (s a b : string) :
  Dep.span p s = (a, b) -> all_chars p a = true /\ a +:+ b = s.
Proof.
  revert a b. induction s as [|c s IH]; intros a b H; cbn in H.
  - injection H as <- <-. done.
  - destruct (p c) eqn:Ep.
    + destruct (Dep.span p s) as [a' b'] eqn:E. injection H as <- <-.
      destruct (IH a' b' eq_refl) as [H1 H2]. cbn. rewrite Ep, H1. subst. done.
    + injection H as <- <-. done.
Qed.

Lemma match_constraint_spec (rest v : string) :
  Dep.match_constraint rest = Some v -> v <> EmptyString /\ all_chars Dep.not_rparen v = true.
Proof.
  unfold Dep.match_constraint.
  destruct (Dep.span Py.is_space rest) as [[|c0 w] r] eqn:E0; [discriminate|].
  destruct r as [|lp r1]; [discriminate|].
  destruct (Py.ch_eqb lp "("%char); [|discriminate].
  destruct (Dep.span Dep.not_rparen r1) as [[|c1 v'] r2] eqn:E1; [discriminate|].
  destruct r2 as [|rp r3]; [discriminate|].
  destruct (Py.ch_eqb rp ")"%char); [|discriminate].
  intros H. injection H as <-. split; [discriminate|].
  apply (span_spec _ _ _ _ E1).
Qed.

Lemma dep_match_spec (s n : string) (c : option string) :
  Dep.dep_match s = Some (n, c) ->
  n <> EmptyString /\ all_chars Dep.is_name_char n = true /\ (exists rest, s = n +:+ rest) /\
  forall v, c = Some v -> v <> EmptyString /\ all_chars Dep.not_rparen v = true.
Proof.
  unfold Dep.dep_match. destruct (Dep.span Dep.is_name_char s) as [[|c0 w] r] eqn:E;
    [discriminate|].
  intros H. injection H as <- <-. destruct (span_spec _ _ _ _ E) as [H1 H2].
  split; [discriminate|]. split; [exact H1|]. split; [by exists r|].
  intros v Hv. by apply match_constraint_spec with r.
Qed.

Lemma length_omap_le {A B} (f : A -> option B) (l : list A) : length (omap f l) <= length l.
Proof. induction l as [|x l IH]; cbn; [lia|]. destruct (f x); cbn; lia. Qed.

(** Every entry of a parsed dependency field has a non-empty name made
    of name characters ([\w], [.], [-]), taken from the start of the
    first alternative of one comma-separated clause, and a constraint
    that is absent or a non-empty text without [)]; there are at most as
    many entries as clauses. *)
Theorem dependency_entries_wellformed (dep_string : string)
    (deps : list (string * option string)) :
  Dep._parse_dependency_string dep_string = Some deps ->
  length deps <= length (Py.split_on ","%char dep_string) /\
  forall n c, (n, c) ∈ deps ->
    n <> EmptyString /\ all_chars Dep.is_name_char n = true /\
    (exists part rest, part ∈ Py.split_on ","%char dep_string /\
       Py.strip (default EmptyString (head (Py.split_on "|"%char part))) = n +:+ rest) /\
    forall v, c = Some v -> v <> EmptyString /\ all_chars Dep.not_rparen v = true.
Proof.
  unfold Dep._parse_dependency_string. rewrite parse_parts_omap. intros H. injection H as <-.
  split; [apply length_omap_le|]. intros n c Hin.
  apply list_elem_of_omap in Hin as (part & Hpart & Hm).
  destruct (dep_match_spec _ _ _ Hm) as (H1 & H2 & [rest Hr] & H4).
  split; [exact H1|]. split; [exact H2|]. split; [|exact H4].
  exists part, rest. split; [exact Hpart|exact Hr].
Qed.

Lemma dependency_entries_wellformed_witness :
  length [("a", Some ">= 1.0"); ("c", None)] <= 2.
Proof.
  refine (proj1 (dependency_entries_wellformed "a (>= 1.0) | b, c" _ _)).
  vm_compute. reflexivity.
Defined.

Lemma dict_get_set (k v k' : string) (d : dict) :
  dict_get (dict_set k v d) k' = if String.eqb k' k then Some v else dict_get d k'.
Proof.
  induction d as [|[k0 v0] d IH]; cbn.
  - done.
  - destruct (String.eqb_spec k k0) as [->|Hne]; cbn.
    + destruct (String.eqb k' k0); done.
    + rewrite IH. destruct (String.eqb_spec k' k) as [->|]; [|done].
      apply String.eqb_neq in Hne. by rewrite Hne.
Qed.

Lemma dict_set_keys (k v : string) (d : dict) :
  NoDup (map fst d) -> NoDup (map fst (dict_set k v d)) /\
  forall x, x ∈ map fst (dict_set k v d) -> x = k \/ x ∈ map fst d.
Proof.
  induction d as [|[k0 v0] d IH]; cbn; intros Hnd.
  - split; [constructor; [set_solver|constructor]|set_solver].
  - apply NoDup_cons in Hnd as [Hk0 Hnd].
    destruct (String.eqb_spec k k0) as [->|Hne]; cbn.
    + split; [by constructor|set_solver].
    + destruct (IH Hnd) as [IH1 IH2]. split.
      * constructor; [|exact IH1]. intros Hin. destruct (IH2 _ Hin); [congruence|contradiction].
      * intros x Hx. apply elem_of_cons in Hx as [->|Hx]; [set_solver|].
        destruct (IH2 _ Hx); set_solver.
Qed.

Lemma last_omap_snoc {A B} (f : A -> option B) (x : A) (l : list A) :
  last (omap f (l ++ [x])) = match f x with Some v => Some v | None => last (omap f l) end.
Proof.
  rewrite omap_app. cbn. destruct (f x); [by rewrite last_snoc | by rewrite app_nil_r].
Qed.

(** Parsing a stanza: the value of a key is the one of the last line
    whose stripped text before the first [:] is that key (the line's
    text after it, stripped), and every key occurs once. *)
Theorem stanza_last_line_wins (raw k : string) :
  dict_get (Debian.parse_stanza raw) k
  = last (omap (line_value k) (Py.split_on (Py.chr 10) (Py.strip raw))) /\
  NoDup (map fst (Debian.parse_stanza raw)).
Proof.
  unfold Debian.parse_stanza.
  assert (H : forall lines d, NoDup (map fst d) ->
            dict_get (fold_left (fun d line =>
              if PyStr.contains_char ":"%char line then
                let '(k0, v) := PyStr.split_once ":"%char line in
                dict_set (Py.strip k0) (Py.strip v) d
              else d) lines d) k
            = match last (omap (line_value k) lines) with
              | Some v => Some v | None => dict_get d k end /\
            NoDup (map fst (fold_left (fun d line =>
              if PyStr.contains_char ":"%char line then
                let '(k0, v) := PyStr.split_once ":"%char line in
                dict_set (Py.strip k0) (Py.strip v) d
              else d) lines d))).
  { induction lines as [|line lines IH] using rev_ind; intros d Hnd.
    - cbn. by destruct (dict_get d k).
    - rewrite fold_left_app, last_omap_snoc. cbn [fold_left].
      destruct (IH d Hnd) as [IH1 IH2].
      unfold line_value at 1. destruct (PyStr.contains_char ":"%char line).
      + destruct (PyStr.split_once ":"%char line) as [k0 v]. split.
        * rewrite dict_get_set. destruct (String.eqb_spec k (Py.strip k0)) as [<-|Hne].
          -- rewrite String.eqb_refl. reflexivity.
          -- rewrite IH1. destruct (String.eqb_spec (Py.strip k0) k); [congruence|reflexivity].
        * apply dict_set_keys, IH2.
      + split; [exact IH1|exact IH2]. }
  destruct (H (Py.split_on (Py.chr 10) (Py.strip raw)) [] (NoDup_nil_2)) as [H1 H2].
  split; [|exact H2]. rewrite H1. by destruct (last _).
Qed.

Lemma prefix_head (c : ascii) (p l : string) :
  String.prefix (String c p) l = true -> exists l', l = String c l'.
Proof.
  destruct l as [|c' l']; cbn; [discriminate|].
  destruct (ascii_dec c c') as [<-|]; [by eexists|discriminate].
Qed.

Lemma release_fold (lines : list string) a b c :
  fold_left (fun acc l => Debian.release_field l acc) lines (a, b, c)
  = (match release_last "Codename:" lines with Some v => Some v | None => a end,
     match release_last "Suite:" lines with Some v => Some v | None => b end,
     match release_last "Origin:" lines with Some v => Some v | None => c end).
Proof.
  induction lines as [|line lines IH] using rev_ind; [reflexivity|].
  rewrite fold_left_app. cbn [fold_left]. rewrite IH. unfold release_last.
  rewrite !last_omap_snoc. unfold Debian.release_field, Py.startswith.
  destruct (String.prefix "Codename:" line) eqn:Ec.
  - destruct (prefix_head _ _ _ Ec) as [l' ->]. reflexivity.
  - destruct (String.prefix "Suite:" line) eqn:Es.
    + destruct (prefix_head _ _ _ Es) as [l' ->]. reflexivity.
    + destruct (String.prefix "Origin:" line) eqn:Eo; reflexivity.
Qed.

(** [_get_release_info] reads the last [Codename:], [Suite:] and
    [Origin:] lines of the Release file and returns the three values, or
    [None] (without any output) when one kind of line is missing; a
    download error prints one line to stderr and exits with status 1. *)
Theorem release_info_last_line_wins (http_get : string -> exc + string)
    (self : Debian.debian) (s : st) :
  (forall text, http_get (Debian.release_url self) = inr text ->
     let lines := Py.splitlines text in
     Debian._get_release_info http_get self s
     = Ok (match release_last "Codename:" lines, release_last "Suite:" lines,
                 release_last "Origin:" lines with
           | Some cn, Some su, Some og => Some (cn, su, og)
           | _, _, _ => None
           end) s) /\
  (forall e, http_get (Debian.release_url self) = inl e -> Debian.is_request_exception e = true ->
     Debian._get_release_info http_get self s
     = Raise (SystemExit 1)
         (mkSt (g s) (next_bnode s)
               (stderr s ++ ["Error: Could not fetch or parse Release file"]))).
Proof.
  split.
  - intros text Ht. cbv zeta. unfold Debian._get_release_info. rewrite Ht, release_fold.
    destruct (release_last "Codename:" (Py.splitlines text)),
      (release_last "Suite:" (Py.splitlines text)),
      (release_last "Origin:" (Py.splitlines text)); reflexivity.
  - intros e He Hr. unfold Debian._get_release_info. rewrite He, Hr. reflexivity.
Qed.

Lemma release_info_last_line_wins_witness :
  Debian._get_release_info c6_manifest_ok c6_repo empty_st = Ok (Some ("c", "s", "o")) empty_st.
Proof.
  refine (proj1 (release_info_last_line_wins c6_manifest_ok c6_repo empty_st) c6_release _).
  vm_compute. reflexivity.
Defined.

Lemma chunks_aux_spec {A} (n : nat) (Hn : 0 < n) :
  forall fuel (l : list A), length l <= fuel ->
  concat (chunks_aux fuel n l) = l /\
  Forall (fun c => 0 < length c /\ length c <= n) (chunks_aux fuel n l) /\
  (forall i c, chunks_aux fuel n l !! i = Some c ->
               S i < length (chunks_aux fuel n l) -> length c = n).
Proof.
  induction fuel as [|fuel IH]; intros l Hl.
  - destruct l; cbn in *; [|lia]. split; [done|]. split; [constructor|]. intros i c H. done.
  - destruct l as [|x l'] eqn:El; cbn [chunks_aux].
    + split; [done|]. split; [constructor|]. intros i c H. done.
    + rewrite <- El.
      assert (Hs : length (skipn n l) <= fuel) by (rewrite length_skipn; subst; cbn in *; lia).
      destruct (IH _ Hs) as (H1 & H2 & H3). split; [|split].
      * cbn. rewrite H1. apply take_drop.
      * constructor; [|exact H2]. rewrite length_firstn. subst. cbn. lia.
      * intros [|i] c Hc Hlen; cbn in Hc, Hlen.
        -- injection Hc as <-. rewrite length_firstn.
           destruct (chunks_aux fuel n (skipn n l)) as [|c' cs'] eqn:Ec; cbn in Hlen; [lia|].
           assert (Hne : skipn n l <> []).
           { intros He. rewrite He in Ec. destruct fuel; discriminate. }
           assert (n < length l).
           { destruct (decide (n < length l)) as [|Hge]; [done|].
             exfalso. apply Hne, skipn_all2. lia. }
           lia.
        -- apply (H3 i c Hc). lia.
Qed.

Lemma chunks_aux_map {A B} (f : A -> B) n fuel (l : list A) :
  chunks_aux fuel n (map f l) = map (map f) (chunks_aux fuel n l).
Proof.
  revert l. induction fuel as [|fuel IH]; intros l; [reflexivity|].
  destruct l as [|x l']; [reflexivity|]. cbn [chunks_aux map].
  rewrite <- (map_cons f x l'), firstn_map, skipn_map, IH. reflexivity.
Qed.

(** For a positive chunk size, the chunks of [collect_parallel] cover
    the input in order, none is empty or longer than the chunk size, and
    all but the last have exactly the chunk size. *)
Theorem chunks_partition {A} (n : nat) (l : list A) :
  0 < n ->
  concat (chunks n l) = l /\
  Forall (fun c => 0 < length c /\ length c <= n) (chunks n l) /\
  (forall i c, chunks n l !! i = Some c -> S i < length (chunks n l) -> length c = n).
Proof. intros Hn. apply chunks_aux_spec; [exact Hn|lia]. Qed.

Lemma chunks_partition_witness : concat (chunks 2 [1; 2; 3; 4; 5]) = [1; 2; 3; 4; 5].
Proof. refine (proj1 (chunks_partition 2 [1; 2; 3; 4; 5] _)). lia. Defined.

Lemma mfor_add_spec (l : list triple) (s : st) :
  exists gr, mfor l add s = Ok tt (mkSt gr (next_bnode s) (stderr s)) /\
             forall t, t ∈ gr <-> t ∈ g s \/ t ∈ l.
Proof.
  revert s. induction l as [|x l IH]; intros s; cbn.
  - exists (g s). split; [by destruct s|]. set_solver.
  - unfold mbind, PyM_bind. cbn.
    destruct (IH (mkSt (graph_add x (g s)) (next_bnode s) (stderr s))) as (gr & E & Hgr).
    exists gr. cbn in E. split; [exact E|]. intros t. rewrite Hgr. cbn.
    rewrite elem_of_graph_add. set_solver.
Qed.

Lemma bnode_bound_spec (pg : graph) t :
  t ∈ pg -> bnode_below (bnode_bound pg) (subj t) /\ bnode_below (bnode_bound pg) (obj t).
Proof.
  induction pg as [|t' pg IH]; intros Ht; [set_solver|].
  apply elem_of_cons in Ht as [<-|Ht]; cbn [bnode_bound foldr].
  - unfold bnode_below. destruct (subj t), (obj t); cbn; lia.
  - destruct (IH Ht) as [H1 H2]. unfold bnode_bound in H1, H2. cbn zeta in *.
    unfold bnode_below in *. destruct (subj t), (obj t); lia.
Qed.

Lemma graph_parse_spec (pg : graph) (s : st) :
  exists s', graph_parse pg s = Ok tt s' /\
    next_bnode s' = next_bnode s + bnode_bound pg /\ stderr s' = stderr s /\
    (forall t, t ∈ g s' <-> t ∈ g s \/ exists t0, t0 ∈ pg /\ t = rename_triple (next_bnode s) t0) /\
    (forall t0, t0 ∈ pg ->
       bnode_from (next_bnode s) (subj (rename_triple (next_bnode s) t0)) /\
       bnode_from (next_bnode s) (obj (rename_triple (next_bnode s) t0))) /\
    (bnodes_allocated s -> bnodes_allocated s').
Proof.
  unfold graph_parse.
  destruct (mfor_add_spec (rev (map (rename_triple (next_bnode s)) pg))
              (mkSt (g s) (next_bnode s + bnode_bound pg) (stderr s))) as (gr & E & Hgr).
  cbn in E. rewrite E. eexists. split; [reflexivity|]. cbn [next_bnode stderr g].
  assert (Hmem : forall t, t ∈ gr <-> t ∈ g s \/ exists t0, t0 ∈ pg /\ t = rename_triple (next_bnode s) t0).
  { intros t. rewrite Hgr. cbn. rewrite list_elem_of_In, <- in_rev, in_map_iff.
    split; intros [H|H]; auto; right.
    - destruct H as (t0 & <- & H). exists t0. split; [by apply list_elem_of_In|done].
    - destruct H as (t0 & H & ->). exists t0. split; [done|by apply list_elem_of_In]. }
  split; [done|]. split; [done|]. split; [exact Hmem|]. split.
  - intros t0 _. unfold rename_triple, rename_term, bnode_from. cbn.
    destruct (subj t0), (obj t0); cbn; lia.
  - intros Hwf t Ht. cbn in Ht. apply Hmem in Ht as [Ht|(t0 & Ht0 & ->)].
    + destruct (Hwf t Ht) as [H1 H2]. cbn. unfold bnode_below in *.
      destruct (subj t), (obj t); lia.
    + destruct (bnode_bound_spec pg t0 Ht0) as [H1 H2]. cbn.
      unfold rename_triple, rename_term, bnode_below in *. cbn.
      destruct (subj t0), (obj t0); cbn; lia.
Qed.

Lemma merge_all_spec (pgs : list graph) (s : st) :
  exists s', mfor pgs graph_parse s = Ok tt s' /\ stderr s' = stderr s /\
    next_bnode s <= next_bnode s' /\
    (forall t, t ∈ g s -> t ∈ g s') /\
    (forall t, t ∈ g s' -> t ∈ g s \/
       exists pg t0 off, pg ∈ pgs /\ t0 ∈ pg /\ next_bnode s <= off /\ t = rename_triple off t0) /\
    (forall pg t0, pg ∈ pgs -> t0 ∈ pg ->
       exists off, next_bnode s <= off /\ rename_triple off t0 ∈ g s') /\
    (bnodes_allocated s -> bnodes_allocated s').
Proof.
  revert s. induction pgs as [|pg pgs IH]; intros s; cbn.
  - exists s. split; [reflexivity|]. split; [done|]. split; [lia|].
    split; [done|]. split; [auto|]. split; [set_solver|done].
  - destruct (graph_parse_spec pg s) as (s1 & E1 & Hn1 & He1 & Hm1 & _ & Hw1).
    destruct (IH s1) as (s2 & E2 & He2 & Hn2 & Hk2 & Hm2 & Hp2 & Hw2).
    exists s2. unfold mbind, PyM_bind. rewrite E1, E2. split; [done|].
    split; [congruence|]. split; [lia|]. split.
    { intros t Ht. apply Hk2, Hm1. by left. }
    split; [|split].
    + intros t Ht. destruct (Hm2 t Ht) as [Ht1|(pg' & t0 & off & Hpg & Ht0 & Hoff & ->)].
      * apply Hm1 in Ht1 as [Ht1|(t0 & Ht0 & ->)]; [by left|].
        right. exists pg, t0, (next_bnode s). split; [set_solver|]. split; [done|]. split; [lia|done].
      * right. exists pg', t0, off. split; [set_solver|]. split; [done|]. split; [lia|done].
    + intros pg' t0 Hpg Ht0. apply elem_of_cons in Hpg as [->|Hpg].
      * exists (next_bnode s). split; [lia|]. apply Hk2, Hm1. right. by exists t0.
      * destruct (Hp2 pg' t0 Hpg Ht0) as (off & Hoff & Hin). exists off. split; [lia|done].
    + intros Hw. apply Hw2, Hw1, Hw.
Qed.

Lemma results_first_error {A} (f : list A -> nat -> exc + graph) :
  forall cs k i c e, cs !! i = Some c -> f c (k + i) = inl e ->
  (forall j c', j < i -> cs !! j = Some c' -> exists pg, f c' (k + j) = inr pg) ->
  results f k cs = inl e.
Proof.
  induction cs as [|c0 cs IH]; intros k i c e Hc Hf Hprev; [done|].
  cbn. destruct i as [|i].
  - injection Hc as ->. rewrite Nat.add_0_r in Hf. by rewrite Hf.
  - destruct (Hprev 0 c0 ltac:(lia) eq_refl) as [pg Hpg]. rewrite Nat.add_0_r in Hpg.
    rewrite Hpg. rewrite (IH (S k) i c e Hc); [reflexivity| |].
    + by replace (S k + i) with (k + S i) by lia.
    + intros j c' Hj Hc'. replace (S k + j) with (k + S j) by lia.
      apply (Hprev (S j)); [lia|exact Hc'].
Qed.

Lemma results_all_ok {A} (f : list A -> nat -> exc + graph) :
  forall cs k, (forall j c, cs !! j = Some c -> exists pg, f c (k + j) = inr pg) ->
  exists pgs, results f k cs = inr pgs /\
    (forall pg, pg ∈ pgs -> exists j c, cs !! j = Some c /\ f c (k + j) = inr pg) /\
    (forall j c pg, cs !! j = Some c -> f c (k + j) = inr pg -> pg ∈ pgs).
Proof.
  induction cs as [|c0 cs IH]; intros k Hall; cbn.
  - exists []. split; [done|]. split; [set_solver|]. intros j c pg Hc. done.
  - destruct (Hall 0 c0 eq_refl) as [pg Hpg]. rewrite Nat.add_0_r in Hpg. rewrite Hpg.
    destruct (IH (S k)) as (pgs & E & Hpgs & Hin).
    { intros j c Hc. replace (S k + j) with (k + S j) by lia. apply (Hall (S j)), Hc. }
    rewrite E. exists (pg :: pgs). split; [done|]. split; cycle 1.
    { intros [|j] c pg' Hc Hf.
      - injection Hc as <-. rewrite Nat.add_0_r in Hf. rewrite Hpg in Hf.
        injection Hf as <-. left.
      - right. apply (Hin j c); [exact Hc|]. by replace (S k + j) with (k + S j) by lia. }
    intros pg' Hpg'. apply elem_of_cons in Hpg' as [->|Hpg'].
    + exists 0, c0. rewrite Nat.add_0_r. done.
    + destruct (Hpgs pg' Hpg') as (j & c & Hc & Hf). exists (S j), c.
      replace (k + S j) with (S k + j) by lia. done.
Qed.




Lemma exactly_ret {A} (a : A) : adds_exactly [] (mret a).
Proof. intros s. exists a, s. split; [done|]. split; [done|]. split; [done|]. set_solver. Qed.

Lemma exactly_add x : adds_exactly [x] (add x).
Proof.
  intros s. eexists _, _. split; [reflexivity|]. split; [done|]. split; [done|].
  intros t. cbn. rewrite elem_of_graph_add. set_solver.
Qed.

Lemma exactly_bind {A B} L1 L2 (m : PyM A) (k : A -> PyM B) :
  adds_exactly L1 m -> (forall a, adds_exactly L2 (k a)) -> adds_exactly (L1 ++ L2) (m ≫= k).
Proof.
  intros Hm Hk s. destruct (Hm s) as (a & s1 & E1 & Hn1 & He1 & Hg1).
  destruct (Hk a s1) as (b & s2 & E2 & Hn2 & He2 & Hg2).
  exists b, s2. unfold mbind, PyM_bind. rewrite E1, E2.
  split; [done|]. split; [congruence|]. split; [congruence|].
  intros t. rewrite Hg2, Hg1. set_solver.
Qed.

Lemma exactly_mfor {A} (F : A -> list triple) (l : list A) (body : A -> PyM unit) :
  (forall x, x ∈ l -> adds_exactly (F x) (body x)) ->
  adds_exactly (concat (map F l)) (mfor l body).
Proof.
  induction l as [|x l IH]; intros Hb; cbn; [apply exactly_ret|].
  apply exactly_bind; [apply Hb; set_solver|]. intros _. apply IH. set_solver.
Qed.

Lemma exactly_perm {A} L L' (m : PyM A) :
  (forall t, t ∈ L <-> t ∈ L') -> adds_exactly L m -> adds_exactly L' m.
Proof.
  intros HL Hm s. destruct (Hm s) as (a & s' & E & Hn & He & Hg).
  exists a, s'. split; [done|]. split; [done|]. split; [done|].
  intros t. rewrite Hg, HL. done.
Qed.

Lemma run_worker_exactly (L : list triple) (m : PyM unit) :
  adds_exactly L m -> (forall t, t ∈ L -> triple_n3_ok t = true) ->
  exists pg, run_worker m = inr pg /\ forall t, t ∈ pg <-> t ∈ L.
Proof.
  intros Hm HL. destruct (Hm empty_st) as ([] & s' & E & _ & _ & Hg).
  unfold run_worker. rewrite E.
  assert (Hs : serialize_ok (g s') = true).
  { unfold serialize_ok. apply forallb_forall. intros t Ht%list_elem_of_In.
    apply HL. apply Hg in Ht as [Ht|Ht]; [inversion Ht|exact Ht]. }
  rewrite Hs. exists (g s'). split; [done|].
  intros t. rewrite Hg. cbn. set_solver.
Qed.

Lemma concat_map_option {A} (f : A -> option triple) (l : list A) :
  concat (map (fun x => match f x with Some t => [t] | None => [] end) l) = omap f l.
Proof. induction l as [|x l IH]; [done|]. cbn. rewrite IH. by destruct (f x). Qed.

Lemma contents_line_exactly (pkg_map : pkg_map_t) (line : string) :
  adds_exactly (line_triples pkg_map line) (Debian.process_contents_line pkg_map line).
Proof.
  unfold Debian.process_contents_line, line_triples. cbn zeta.
  destruct (length _ <? 2); [apply exactly_ret|].
  rewrite <- concat_map_option. apply exactly_mfor. intros x _.
  destruct (pkg_map !! _); cbn; [apply exactly_add|apply exactly_ret].
Qed.

Lemma elem_of_concat_map {A} (F : A -> list triple) (l : list A) t :
  t ∈ concat (map F l) <-> exists x, x ∈ l /\ t ∈ F x.
Proof.
  induction l as [|x l IH]; cbn.
  - split; [set_solver|]. intros (x & Hx & _). set_solver.
  - rewrite elem_of_app, IH. split.
    + intros [H|(y & Hy & H)]; [exists x; set_solver|exists y; set_solver].
    + intros (y & Hy & H). apply elem_of_cons in Hy as [->|Hy]; [by left|].
      right. by exists y.
Qed.

Lemma filelists_triples_n3 (pkg_map : Rpm.rpm_map_t) (chunk : list Rpm.fl_data) t :
  map_Forall (fun _ u => n3_ok u = true) pkg_map ->
  t ∈ filelists_triples pkg_map chunk -> triple_n3_ok t = true.
Proof.
  intros Hm. unfold filelists_triples. rewrite elem_of_concat_map.
  intros (d & _ & Ht). destruct (pkg_map !! _) as [u|] eqn:E; [|set_solver].
  apply list_elem_of_fmap in Ht as (f & -> & _).
  unfold triple_n3_ok, subj, pred, obj; cbn [fst snd]. rewrite (Hm _ _ E). reflexivity.
Qed.

Lemma filelists_chunk_spec (pkg_map : Rpm.rpm_map_t) (chunk : list Rpm.fl_data) (i : nat) :
  map_Forall (fun _ u => n3_ok u = true) pkg_map ->
  exists pg, Rpm._process_filelists_chunk chunk i pkg_map = inr pg /\
    forall t, t ∈ pg <-> t ∈ filelists_triples pkg_map chunk.
Proof.
  intros Hm. apply run_worker_exactly; [|intros t; by apply filelists_triples_n3].
  apply exactly_mfor. intros d _.
  destruct (pkg_map !! _); [|apply exactly_ret].
  replace (map (fun f => (t, URI (Rpm.RPM +:+ "fileName"), Lit f)) (Rpm.files d))
    with (concat (map (fun f => [(t, URI (Rpm.RPM +:+ "fileName"), Lit f)]) (Rpm.files d))).
  - apply exactly_mfor. intros f _. apply exactly_add.
  - clear. induction (Rpm.files d) as [|f l IH]; [done|]. cbn. by rewrite IH.
Qed.

(** The file-ownership worker of the RPM collector never raises when the
    index maps checksums to valid IRIs (as [_build_package_map] builds it,
    see [rpm_index_n3]), and its graph holds exactly the [rpm:fileName]
    triples of the indexed entries. *)
Theorem filelists_chunk_exact (pkg_map : Rpm.rpm_map_t) (chunk : list Rpm.fl_data) (i : nat) :
  map_Forall (fun _ u => n3_ok u = true) pkg_map ->
  exists pg, Rpm._process_filelists_chunk chunk i pkg_map = inr pg /\
    forall t, t ∈ pg <-> t ∈ filelists_triples pkg_map chunk.
Proof. apply filelists_chunk_spec. Qed.

Lemma filelists_chunk_exact_witness :
  map_Forall (fun _ u => n3_ok u = true) ({[ Some "abc" := URI "http://r/p" ]} : Rpm.rpm_map_t) /\
  exists pg, Rpm._process_filelists_chunk [Rpm.mkFlData "abc" ["/usr/bin/p"]] 0
               {[ Some "abc" := URI "http://r/p" ]} = inr pg /\
    forall t, t ∈ pg <-> t ∈ filelists_triples {[ Some "abc" := URI "http://r/p" ]}
                                               [Rpm.mkFlData "abc" ["/usr/bin/p"]].
Proof.
  assert (H : map_Forall (fun _ u => n3_ok u = true)
                ({[ Some "abc" := URI "http://r/p" ]} : Rpm.rpm_map_t)).
  { apply map_Forall_singleton. reflexivity. }
  split; [exact H|]. exact (filelists_chunk_exact _ _ 0 H).
Defined.



Lemma rename_plain off t : plain t -> rename_triple off t = t.
Proof.
  destruct t as [[a p] b]. unfold plain, rename_triple, bnode_below; cbn.
  destruct a, b; cbn; intros [H1 H2]; try lia; reflexivity.
Qed.

Lemma bnode_bound_plain pg : (forall t, t ∈ pg -> plain t) -> bnode_bound pg = 0.
Proof.
  intros Hp. destruct (decide (bnode_bound pg = 0)) as [|Hne]; [done|].
  exfalso. induction pg as [|t pg IH]; [done|].
  cbn [bnode_bound foldr] in Hne. unfold bnode_bound in IH.
  destruct (Hp t ltac:(set_solver)) as [H1 H2].
  unfold bnode_below in H1, H2.
  destruct (subj t); try lia; destruct (obj t); try lia;
    cbn -[foldr] in Hne; apply IH; [set_solver| |set_solver| |set_solver| |set_solver| |
                                   set_solver| |set_solver| |set_solver| |set_solver| |
                                   set_solver|]; lia.
Qed.

Lemma graph_parse_plain pg : (forall t, t ∈ pg -> plain t) -> adds_exactly pg (graph_parse pg).
Proof.
  intros Hp s. destruct (graph_parse_spec pg s) as (s' & E & Hn & He & Hm & _).
  exists tt, s'. split; [done|]. rewrite bnode_bound_plain in Hn by exact Hp.
  split; [lia|]. split; [done|]. intros t. rewrite Hm. split.
  - intros [H|(t0 & Ht0 & ->)]; [by left|]. right. by rewrite rename_plain by auto.
  - intros [H|H]; [by left|]. right. exists t. by rewrite rename_plain by auto.
Qed.

Lemma collect_parallel_exactly {A} (self : collector) (items : list A)
      (f : list A -> nat -> exc + graph) (F : A -> list triple) :
  use_single_threaded self (length items) = false -> 0 < chunk_size self ->
  (forall c i, c <> [] -> (forall x, x ∈ c -> x ∈ items) -> exists pg, f c i = inr pg /\
     (forall t, t ∈ pg <-> t ∈ concat (map F c)) /\ forall t, t ∈ pg -> plain t) ->
  forall s, exists s', collect_parallel self items f s = Ok (length items) s' /\
    next_bnode s' = next_bnode s /\ stderr s' = stderr s /\
    forall t, t ∈ g s' <-> t ∈ g s \/ t ∈ concat (map F items).
Proof.
  intros Hus Hn Hf s. unfold collect_parallel. rewrite Hus.
  destruct (decide (chunk_size self = 0)) as [|_]; [lia|].
  destruct (chunks_aux_spec (chunk_size self) Hn (length items) items ltac:(lia))
    as (Hcat & Hne & _). fold (chunks (chunk_size self) items) in Hcat, Hne.
  assert (Hok : forall j c, chunks (chunk_size self) items !! j = Some c ->
            exists pg, f c (0 + j) = inr pg /\
              (forall t, t ∈ pg <-> t ∈ concat (map F c)) /\ forall t, t ∈ pg -> plain t).
  { intros j c Hc. apply Hf.
    - eapply Forall_lookup_1 in Hne; [|exact Hc]. destruct c; cbn in Hne; [lia|discriminate].
    - intros x Hx. rewrite <- Hcat. apply list_elem_of_In, in_concat. exists c.
      split; apply list_elem_of_In; [eapply list_elem_of_lookup_2, Hc|exact Hx]. }
  destruct (results_all_ok f (chunks (chunk_size self) items) 0) as (pgs & E & Hpgs & Hin).
  { intros j c Hc. destruct (Hok j c Hc) as (pg & Ep & _). by exists pg. }
  rewrite E.
  assert (Hpl : forall pg, pg ∈ pgs -> exists j c, chunks (chunk_size self) items !! j = Some c /\
                  (forall t, t ∈ pg <-> t ∈ concat (map F c)) /\ forall t, t ∈ pg -> plain t).
  { intros pg Hpg. destruct (Hpgs pg Hpg) as (j & c & Hc & Ef).
    destruct (Hok j c Hc) as (pg' & Ef' & H1 & H2). rewrite Ef in Ef'. injection Ef' as <-.
    exists j, c. done. }
  destruct (exactly_mfor id pgs graph_parse) with (s := s) as ([] & s' & E' & Hn' & He' & Hg').
  { intros pg Hpg. destruct (Hpl pg Hpg) as (j & c & _ & _ & Hp). by apply graph_parse_plain. }
  exists s'. unfold mbind, PyM_bind. cbv beta. match goal with |- context [match ?m with Ok _ _ => _ | Raise _ _ => _ end] => replace m with (Ok tt s') by (symmetry; exact E') end. split; [done|]. split; [done|]. split; [done|].
  intros t. rewrite Hg'. rewrite <- Hcat. rewrite !elem_of_concat_map.
  split; (intros [H|H]; [by left|right]).
  - destruct H as (pg & Hpg & Ht). destruct (Hpl pg Hpg) as (j & c & Hc & Hm & _).
    apply Hm, elem_of_concat_map in Ht as (x & Hx & Ht).
    exists x. split; [|done]. apply list_elem_of_In, in_concat. exists c.
    split; apply list_elem_of_In; [eapply list_elem_of_lookup_2, Hc|exact Hx].
  - destruct H as (x & Hx & Ht). apply list_elem_of_In, in_concat in Hx as (c & Hc & Hx).
    apply list_elem_of_In, list_elem_of_lookup_1 in Hc as [j Hc].
    destruct (Hok j c Hc) as (pg & Ef & Hm & _).
    exists pg. split; [exact (Hin j c pg Hc Ef)|].
    apply Hm, elem_of_concat_map. exists x. split; [by apply list_elem_of_In|done].
Qed.

Lemma line_triples_spec (pkg_map : pkg_map_t) line t :
  t ∈ line_triples pkg_map line ->
  (exists n, pkg_map !! n = Some (subj t)) /\ pred t = URI (Debian.DEB +:+ "fileName") /\
  exists f, obj t = Lit f.
Proof.
  unfold line_triples. destruct (length _ <? 2); [set_solver|].
  rewrite list_elem_of_omap. intros (x & _ & Hx).
  destruct (pkg_map !! _) eqn:E; cbn in Hx; [|discriminate].
  injection Hx as <-. split; [eexists; exact E|]. split; [done|]. eexists; reflexivity.
Qed.

Lemma line_triples_n3 (pkg_map : pkg_map_t) line t :
  map_Forall (fun _ u => n3_ok u = true) pkg_map ->
  t ∈ line_triples pkg_map line -> triple_n3_ok t = true.
Proof.
  intros Hm Ht. destruct (line_triples_spec _ _ _ Ht) as ((n & Hn) & Hp & f & Ho).
  unfold triple_n3_ok. rewrite (Hm _ _ Hn), Hp, Ho. reflexivity.
Qed.

Lemma contents_phase_exactly http_get self (pkg_map : pkg_map_t) text :
  http_get (Debian.contents_url self) = inr text -> 0 < chunk_size (Debian.base self) ->
  map_Forall (fun _ u => bnode_below 0 u /\ n3_ok u = true) pkg_map ->
  adds_exactly (concat (map (line_triples pkg_map) (Py.splitlines text)))
               (Debian._process_contents_parallel http_get self pkg_map).
Proof.
  intros Ht Hn Hm s. unfold Debian._process_contents_parallel, Debian.try_http.
  unfold mbind at 1, PyM_bind at 1. unfold Debian.fetch. rewrite Ht. cbn beta iota.
  unfold mret at 1, PyM_ret at 1. cbv zeta.
  destruct (use_single_threaded _ _) eqn:Hus.
  - destruct (exactly_mfor (line_triples pkg_map) (Py.splitlines text)
                (Debian.process_contents_line pkg_map)) with (s := s)
      as ([] & s' & E & H).
    { intros x _. apply contents_line_exactly. }
    exists tt, s'. unfold Debian._process_contents_single_threaded. rewrite E. done.
  - assert (Hpl : forall x, x ∈ Py.splitlines text -> forall t, t ∈ line_triples pkg_map x -> plain t).
    { intros x _ t Ht'. destruct (line_triples_spec _ _ _ Ht') as ((n & Hn') & _ & f & Ho).
      split; [exact (proj1 (Hm n _ Hn'))|]. rewrite Ho. done. }
    rewrite <- (length_map (fun line => (line, pkg_map))) in Hus.
    destruct (collect_parallel_exactly (Debian.base self) (map (fun line => (line, pkg_map))
                (Py.splitlines text)) Debian._process_contents_chunk_wrapper
                (fun it => line_triples it.2 it.1) Hus Hn) with (s := s)
      as (s' & E & Hn' & He' & Hg').
    + intros [|[l0 pm] c] i Hne Hc; [done|].
      assert (Hall : forall x, x ∈ (l0, pm) :: c -> x.2 = pkg_map /\ x.1 ∈ Py.splitlines text).
      { intros x Hx. apply Hc, list_elem_of_fmap in Hx as (y & -> & Hy). done. }
      destruct (Hall (l0, pm) ltac:(set_solver)) as [Hpm _]. cbn in Hpm. subst pm.
      unfold Debian._process_contents_chunk_wrapper, Debian._process_contents_chunk.
      destruct (run_worker_exactly (concat (map (line_triples pkg_map) (map fst ((l0, pkg_map) :: c))))
                  (mfor (map fst ((l0, pkg_map) :: c)) (Debian.process_contents_line pkg_map)))
        as (pg & Epg & Hpg).
      { apply exactly_mfor. intros x _. apply contents_line_exactly. }
      { intros t Ht'. apply elem_of_concat_map in Ht' as (x & _ & Ht').
        refine (line_triples_n3 pkg_map x t _ Ht'). intros n u Hn'. exact (proj2 (Hm n u Hn')). }
      exists pg. split; [exact Epg|]. split.
      * intros t. rewrite Hpg, !elem_of_concat_map. split.
        -- intros (x & Hx & Ht'). apply list_elem_of_fmap in Hx as (y & -> & Hy).
           exists y. split; [done|]. by rewrite (proj1 (Hall y Hy)).
        -- intros (y & Hy & Ht'). exists y.1. split; [by apply list_elem_of_fmap_2|].
           by rewrite <- (proj1 (Hall y Hy)).
      * intros t Ht'. apply Hpg, elem_of_concat_map in Ht' as (x & Hx & Ht').
        apply list_elem_of_fmap in Hx as (y & -> & Hy).
        apply (Hpl y.1 (proj2 (Hall y Hy))). done.
    + exists tt, s'. unfold mbind at 1, PyM_bind at 1. cbv beta.
      match goal with |- context [match ?m with Ok _ _ => _ | Raise _ _ => _ end] =>
        replace m with (Ok (length (map (fun line => (line, pkg_map)) (Py.splitlines text))) s')
          by (symmetry; exact E) end.
      split; [done|]. split; [done|]. split; [done|].
      intros t. rewrite Hg', !elem_of_concat_map. split.
      * intros [H|(x & Hx & Ht')]; [by left|right].
        apply list_elem_of_fmap in Hx as (y & -> & Hy). by exists y.
      * intros [H|(y & Hy & Ht')]; [by left|right].
        exists (y, pkg_map). split; [apply list_elem_of_fmap; by exists y|done].
Qed.

Lemma legacy_contents_exactly http_get self (pkg_map : pkg_map_t) text :
  http_get (Debian.contents_url self) = inr text ->
  adds_exactly (concat (map (line_triples pkg_map) (Py.splitlines text)))
               (Debian._process_contents http_get self pkg_map).
Proof.
  intros Ht s. unfold Debian._process_contents, Debian.try_http.
  unfold mbind at 1, PyM_bind at 1. unfold Debian.fetch. rewrite Ht. cbn beta iota.
  unfold mret at 1, PyM_ret at 1.
  destruct (exactly_mfor (line_triples pkg_map) (Py.splitlines text)
              (Debian.process_contents_line pkg_map)) with (s := s) as ([] & s' & E & H).
  { intros x _. apply contents_line_exactly. }
  exists tt, s'. rewrite E. done.
Qed.



Lemma bind_ok {A B} (m : PyM A) (k : A -> PyM B) s a s' :
  m s = Ok a s' -> (m ≫= k) s = k a s'.
Proof. intros E. unfold mbind, PyM_bind. rewrite E. reflexivity. Qed.

Lemma no_raise_mfor_in {A} (l : list A) (body : A -> PyM unit) :
  (forall x, x ∈ l -> no_raise (body x)) -> no_raise (mfor l body).
Proof.
  induction l as [|x l IH]; intros Hb; cbn; [apply no_raise_ret|].
  apply no_raise_bind; [apply Hb; set_solver|]. intros _. apply IH. set_solver.
Qed.

Lemma no_raise_parse_dependency e v : no_raise (of_option e (Dep._parse_dependency_string v)).
Proof.
  unfold Dep._parse_dependency_string. rewrite parse_parts_omap. apply no_raise_ret.
Qed.

Lemma no_raise_of_some {A} e (a : A) : no_raise (of_option e (Some a)).
Proof. apply no_raise_ret. Qed.

Ltac no_raise_deb_tac :=
  repeat (cbn beta iota zeta;
          match goal with
          | |- no_raise (of_option _ (Some _)) => apply no_raise_of_some
          | |- no_raise (of_option _ (Dep._parse_dependency_string _)) =>
              apply no_raise_parse_dependency
          | |- no_raise (mbind _ _) => apply no_raise_bind; [|intros ?]
          | |- no_raise (mfor _ _) => apply no_raise_mfor; intros ?
          | |- no_raise (add _) => apply no_raise_add
          | |- no_raise new_bnode => apply no_raise_new_bnode
          | |- no_raise (mret _) => apply no_raise_ret
          | |- no_raise (if _ then _ else _) => case_match
          | |- no_raise (match _ with _ => _ end) => case_match
          end).

Lemma deb_emit_package_no_raise c d :
  Debian.has_identity d = true -> no_raise (Debian.emit_package c d).
Proof.
  intros Hd. destruct (has_identity_get d Hd) as [Hp Hv].
  unfold Debian.emit_package, getitem. rewrite Hp, Hv. no_raise_deb_tac.
Qed.

Lemma metadata_no_raise cn su og : no_raise (Debian._add_distribution_metadata cn su og).
Proof. unfold Debian._add_distribution_metadata. no_raise_deb_tac. Qed.

Lemma collect_parallel_ok {A} (self : collector) (items : list A)
      (f : list A -> nat -> exc + graph) :
  parallel self = false \/ 0 < chunk_size self ->
  (forall c i, c <> [] -> (forall x, x ∈ c -> x ∈ items) -> exists pg, f c i = inr pg) ->
  forall s, exists s', collect_parallel self items f s = Ok (length items) s'.
Proof.
  intros Hpar Hf s. unfold collect_parallel.
  destruct (use_single_threaded self (length items)) eqn:Hus; [by eexists|].
  assert (Hn : 0 < chunk_size self).
  { destruct Hpar as [Hp|]; [|done]. unfold use_single_threaded in Hus.
    rewrite Hp in Hus. discriminate. }
  destruct (decide (chunk_size self = 0)) as [|_]; [lia|].
  destruct (chunks_aux_spec (chunk_size self) Hn (length items) items ltac:(lia))
    as (Hcat & Hne & _). fold (chunks (chunk_size self) items) in Hcat, Hne.
  destruct (results_all_ok f (chunks (chunk_size self) items) 0) as (pgs & E & _).
  { intros j c Hc. apply Hf.
    - eapply Forall_lookup_1 in Hne; [|exact Hc]. destruct c; cbn in Hne; [lia|discriminate].
    - intros x Hx. rewrite <- Hcat. apply list_elem_of_In, in_concat. exists c.
      split; apply list_elem_of_In; [eapply list_elem_of_lookup_2, Hc|exact Hx]. }
  rewrite E. destruct (merge_all_spec pgs s) as (s' & E' & _).
  exists s'. unfold mbind, PyM_bind. cbv beta.
  match goal with |- context [match ?m with Ok _ _ => _ | Raise _ _ => _ end] =>
    replace m with (Ok tt s') by (symmetry; exact E') end.
  reflexivity.
Qed.

Lemma lower_char_uri_char (c : ascii) : uri_char_ok c = true -> uri_char_ok (Py.lower_char c) = true.
Proof. destruct c as [[] [] [] [] [] [] [] []]; vm_compute; congruence. Qed.

Lemma valid_uri_lower (k : string) : _is_valid_uri k = true -> _is_valid_uri (Py.lower k) = true.
Proof.
  induction k as [|c k IH]; [done|]. cbn [Py.lower _is_valid_uri].
  intros [Hc Hk]%andb_true_iff. by rewrite lower_char_uri_char, IH.
Qed.

Lemma valid_uri_remove_dash (k : string) :
  _is_valid_uri k = true -> _is_valid_uri (Py.remove_dash k) = true.
Proof.
  induction k as [|c k IH]; [done|]. cbn [Py.remove_dash _is_valid_uri].
  intros [Hc Hk]%andb_true_iff. destruct (Py.ch_eqb c "-"%char); [by apply IH|].
  cbn [_is_valid_uri]. by rewrite Hc, IH.
Qed.

(** The package emitter adds only triples with valid IRIs as soon as the
    codename and the keys of the stanza are valid IRI text. *)
Lemma deb_emit_package_n3 cn (d : dict) :
  _is_valid_uri cn = true -> Forall (fun kv => _is_valid_uri kv.1 = true) d ->
  adds (fun t => triple_n3_ok t = true) (Debian.emit_package (URI (Debian.DEB +:+ cn)) d).
Proof.
  intros Hc Hd. rewrite Forall_forall in Hd. unfold Debian.emit_package. adds_tac;
    unfold triple_n3_ok, subj, pred, obj; cbn [fst snd]; rewrite ?deb_pkg_uri_ok;
    cbn [n3_ok]; rewrite ?valid_uri_app, ?Hc; try reflexivity.
  - rewrite valid_uri_remove_dash; [reflexivity|]. apply valid_uri_lower. by apply Hd.
  - match goal with H : _ ∈ Debian.dep_keys |- _ =>
      apply list_elem_of_In in H; cbn in H; repeat destruct H as [<-|H]; try reflexivity;
      contradiction end.
Qed.

Lemma packages_phase_ok (self : Debian.debian) (pds : list dict) cn su og :
  Forall (fun d => Debian.has_identity d = true) pds -> 0 < chunk_size (Debian.base self) ->
  _is_valid_uri cn = true -> Forall (fun d => Forall (fun kv => _is_valid_uri kv.1 = true) d) pds ->
  forall s, exists s',
    (if use_single_threaded (Debian.base self) (length pds) then
       Debian._process_packages_single_threaded pds cn su og
     else
       collect_parallel (Debian.base self)
         (map (fun pkg_data => (pkg_data, cn, su, og)) pds)
         Debian._process_package_chunk_wrapper) s = Ok (length pds) s'.
Proof.
  intros Hall Hn Hcn Hk s. rewrite Forall_forall in Hall, Hk. case_match.
  - unfold Debian._process_packages_single_threaded.
    destruct (no_raise_mfor_in pds (Debian.emit_package (URI (Debian.DEB +:+ cn))))
      with (s := s) as ([] & s' & E).
    { intros d Hd. apply deb_emit_package_no_raise, Hall, Hd. }
    exists s'. rewrite (bind_ok _ _ _ _ _ E). reflexivity.
  - rewrite <- (length_map (fun pkg_data => (pkg_data, cn, su, og)) pds).
    apply collect_parallel_ok; [by right|].
    intros [|[[[d0 c0] s0] o0] c] i Hne Hc; [done|].
    unfold Debian._process_package_chunk_wrapper, Debian._process_package_chunk.
    assert (Hin : forall d, d ∈ map (fun it => it.1.1.1) ((d0, c0, s0, o0) :: c) -> d ∈ pds).
    { intros d Hd. apply list_elem_of_fmap in Hd as (y & -> & Hy).
      apply Hc, list_elem_of_fmap in Hy as (z & -> & Hz). done. }
    assert (Hc0 : c0 = cn).
    { destruct (proj1 (list_elem_of_fmap _ _ _) (Hc (d0, c0, s0, o0) ltac:(set_solver)))
        as (z & Hz & _). by injection Hz. }
    subst c0.
    destruct (no_raise_mfor_in (map (fun it => it.1.1.1) ((d0, cn, s0, o0) :: c))
                (Debian.emit_package (URI (Debian.DEB +:+ cn)))) with (s := empty_st)
      as ([] & s' & E).
    { intros d Hd. apply deb_emit_package_no_raise, Hall, Hin, Hd. }
    exists (g s'). apply (run_worker_ok _ tt); [|exact E].
    apply adds_mfor. intros d Hd. apply deb_emit_package_n3; [exact Hcn|].
    apply Hk, Hin, Hd.
Qed.

Lemma index_values_plain (pds : list dict) (m0 : pkg_map_t) :
  map_Forall (fun _ u => bnode_below 0 u /\ n3_ok u = true) m0 ->
  map_Forall (fun _ u => bnode_below 0 u /\ n3_ok u = true) (fold_left index_insert pds m0).
Proof.
  revert m0. induction pds as [|d pds IH]; intros m0 Hm; cbn; [done|].
  apply IH. unfold index_insert. apply map_Forall_insert_2; [|exact Hm].
  split; [exact I|apply deb_pkg_uri_ok].
Qed.

Lemma contents_phase_ok http_get self (pkg_map : pkg_map_t) :
  0 < chunk_size (Debian.base self) ->
  map_Forall (fun _ u => bnode_below 0 u /\ n3_ok u = true) pkg_map ->
  (forall e, http_get (Debian.contents_url self) = inl e -> e = HTTPError) ->
  no_raise (Debian._process_contents_parallel http_get self pkg_map).
Proof.
  intros Hn Hm He s. destruct (http_get (Debian.contents_url self)) as [e|text] eqn:Ht.
  - rewrite (He e eq_refl) in Ht.
    unfold Debian._process_contents_parallel, Debian.try_http.
    unfold mbind, PyM_bind, raise. unfold Debian.fetch. rewrite Ht. cbn. by eexists _, _.
  - destruct (contents_phase_exactly http_get self pkg_map text Ht Hn Hm s)
      as (a & s' & E & _). by exists a, s'.
Qed.



Lemma other_chunk_ok (chunk : list Rpm.ot_data) (i : nat) (pkg_map : Rpm.rpm_map_t) :
  map_Forall (fun _ u => n3_ok u = true) pkg_map ->
  exists pg, Rpm._process_other_chunk chunk i pkg_map = inr pg.
Proof.
  intros Hm. unfold Rpm._process_other_chunk.
  match goal with |- exists pg, run_worker ?m = inr pg =>
    assert (H : no_raise m) by no_raise_tac;
    assert (Ha : adds (fun t => triple_n3_ok t = true) m) end.
  { adds_tac; unfold triple_n3_ok, subj, pred, obj; cbn [fst snd]; try reflexivity.
    all: match goal with H : _ !! _ = Some _ |- _ => rewrite (Hm _ _ H); reflexivity end. }
  destruct (H empty_st) as ([] & s' & E). exists (g s'). exact (run_worker_ok _ tt s' Ha E).
Qed.

Lemma rpm_index_n3 (pds : list Rpm.pkg_data) :
  map_Forall (fun _ u => bnode_below 0 u /\ n3_ok u = true) (Rpm._build_package_map pds).
Proof.
  unfold Rpm._build_package_map.
  assert (H : forall m0 : Rpm.rpm_map_t, map_Forall (fun _ u => bnode_below 0 u /\ n3_ok u = true) m0 ->
            map_Forall (fun _ u => bnode_below 0 u /\ n3_ok u = true)
              (fold_left (fun m d => <[Rpm.pkgid d := Rpm.pkg_uri d]> m) pds m0)).
  { induction pds as [|d pds IH]; intros m0 Hm; cbn; [done|].
    apply IH, map_Forall_insert_2; [|exact Hm]. split; [exact I|apply rpm_pkg_uri_ok]. }
  apply H, map_Forall_empty.
Qed.

Lemma rpm_primary_data (primary : option (list Rpm.pkg_elem)) (s : st) :
  exists s0, Rpm._get_primary_packages_data primary s
             = Ok (map Rpm.to_pkg_data (default [] primary)) s0 /\
    s0 = match primary with
         | Some _ => s
         | None => mkSt (g s) (next_bnode s) (stderr s ++ [Rpm.metadata_warning "primary"])
         end.
Proof. destruct primary; by eexists. Qed.



Lemma seq_returns {A B} (m : PyM A) (k : PyM B) (v : B) :
  no_raise m -> (forall s, exists s', k s = Ok v s') -> forall s, exists s', (m ;; k) s = Ok v s'.
Proof.
  intros Hm Hk s. destruct (Hm s) as (a & s1 & E1). rewrite (bind_ok _ _ _ _ _ E1). apply Hk.
Qed.

Lemma ret_bind {A B} (a : A) (k : A -> PyM B) s : (mret a ≫= k) s = k a s.
Proof. reflexivity. Qed.

Lemma legacy_body_ok c (m : pkg_map_t) info s :
  exists s', Debian.legacy_package_body c m info s
    = Ok (if Debian.has_identity (Debian.parse_stanza info)
          then index_insert m (Debian.parse_stanza info) else m) s'.
Proof.
  unfold Debian.legacy_package_body. fold (Debian.has_identity (Debian.parse_stanza info)).
  destruct (Debian.has_identity _) eqn:Hd; [|by eexists].
  destruct (has_identity_get _ Hd) as [Hp Hv]. unfold getitem. rewrite Hp, Hv.
  cbn [of_option]. rewrite !ret_bind. cbv beta zeta.
  revert s. repeat (apply seq_returns; [no_raise_deb_tac|]).
  intros s. by eexists.
Qed.

Lemma legacy_fold_ok c (stanzas : list string) (m0 : pkg_map_t) s :
  exists s', mfold (Debian.legacy_package_body c) stanzas m0 s
    = Ok (fold_left index_insert
            (filter (fun d => Debian.has_identity d = true) (map Debian.parse_stanza stanzas)) m0) s'.
Proof.
  revert m0 s. induction stanzas as [|info stanzas IH]; intros m0 s; cbn [mfold]; [by eexists|].
  destruct (legacy_body_ok c m0 info s) as (s1 & E1). rewrite (bind_ok _ _ _ _ _ E1).
  destruct (Debian.has_identity (Debian.parse_stanza info)) eqn:Hd.
  - destruct (IH (index_insert m0 (Debian.parse_stanza info)) s1) as (s2 & E2).
    exists s2. rewrite E2. cbn [map]. rewrite filter_cons_True by exact Hd. reflexivity.
  - destruct (IH m0 s1) as (s2 & E2).
    exists s2. rewrite E2. cbn [map]. rewrite filter_cons_False by (rewrite Hd; discriminate).
    reflexivity.
Qed.

(** The older [_process_packages] returns the same name index as the
    pair [_get_packages_data] then [_build_package_map] that [collect]
    uses, whenever the Packages file downloads. *)
Theorem legacy_process_packages_same_index http_get self cn su og text (s : st) :
  http_get (Debian.packages_url self) = inr text ->
  exists m s', Debian._process_packages http_get self cn su og s = Ok m s' /\
    (Debian._get_packages_data http_get self ≫= Debian._build_package_map) s = Ok m s.
Proof.
  intros Ht. exists (fold_left index_insert (Debian.parse_packages text) ∅).
  assert (Hf : Debian.fetch http_get (Debian.packages_url self) s = Ok text s).
  { unfold Debian.fetch. rewrite Ht. reflexivity. }
  unfold Debian._process_packages. rewrite (bind_ok _ _ _ _ _ Hf).
  destruct (metadata_no_raise cn su og s) as ([] & s1 & E1). rewrite (bind_ok _ _ _ _ _ E1).
  destruct (legacy_fold_ok (URI (Debian.DEB +:+ cn)) (Py.split_blank_line (Py.strip text)) ∅ s1)
    as (s2 & E2).
  exists s2. split; [exact E2|].
  assert (Hp : Debian._get_packages_data http_get self s = Ok (Debian.parse_packages text) s).
  { unfold Debian._get_packages_data. rewrite (bind_ok _ _ _ _ _ Hf). reflexivity. }
  rewrite (bind_ok _ _ _ _ _ Hp). apply build_package_map_ok, parse_packages_identity.
Qed.

Lemma legacy_process_packages_same_index_witness :
  exists m s', Debian._process_packages c6_manifest_ok c6_repo "c" "s" "o" empty_st = Ok m s' /\
    (Debian._get_packages_data c6_manifest_ok c6_repo ≫= Debian._build_package_map) empty_st
    = Ok m empty_st.
Proof. apply (legacy_process_packages_same_index c6_manifest_ok c6_repo "c" "s" "o" c6_packages). reflexivity. Defined.


Lemma adds_mfold {A B} P (body : B -> A -> PyM B) (l : list A) (acc : B) :
  (forall acc x, adds P (body acc x)) -> adds P (mfold body l acc).
Proof.
  intros Hb. revert acc. induction l as [|x l IH]; intros acc; cbn [mfold]; [apply adds_ret|].
  apply adds_bind; [apply Hb|exact IH].
Qed.


Ltac not_dep_pred :=
  let p := fresh "p" in let Hp := fresh "Hp" in let Heq := fresh "Heq" in
  intros p Hp Heq; cbn in Heq;
  repeat (apply elem_of_cons in Hp as [->|Hp]; [discriminate Heq|]);
  apply elem_of_nil in Hp; contradiction.


Lemma set_add_spec (x : term) (l : list term) :
  NoDup l -> NoDup (MainTests.set_add x l) /\
  forall y, y ∈ MainTests.set_add x l <-> y = x \/ y ∈ l.
Proof.
  intros Hl. unfold MainTests.set_add. case_decide as Hx.
  - split; [done|]. set_solver.
  - split; [|set_solver]. apply NoDup_app. split; [done|]. split; [|apply NoDup_singleton].
    set_solver.
Qed.

Lemma set_add_if_spec (b : bool) (x : term) (l : list term) :
  NoDup l -> NoDup (if b then MainTests.set_add x l else l) /\
  forall y, y ∈ (if b then MainTests.set_add x l else l) <-> (b = true /\ y = x) \/ y ∈ l.
Proof.
  intros Hl. destruct b; [|split; [done|]; set_solver].
  destruct (set_add_spec x l Hl) as [H1 H2]. split; [done|]. intros y. rewrite H2. naive_solver.
Qed.


Lemma core_refs_fold (gr : graph) (acc : list term) :
  NoDup acc ->
  let r := fold_left (fun acc t =>
                 let acc := if Py.startswith (MainTests.str (subj t)) MainTests.core_namespace
                            then MainTests.set_add (subj t) acc else acc in
                 let acc := if Py.startswith (MainTests.str (pred t)) MainTests.core_namespace
                            then MainTests.set_add (pred t) acc else acc in
                 if Py.startswith (MainTests.str (obj t)) MainTests.core_namespace
                 then MainTests.set_add (obj t) acc else acc) gr acc in
  NoDup r /\ forall x, x ∈ r <-> x ∈ acc \/
    exists t, t ∈ gr /\ (x = subj t \/ x = pred t \/ x = obj t) /\ is_core x = true.
Proof.
  revert acc. induction gr as [|t gr IH]; intros acc Hacc; cbn zeta.
  - split; [done|]. intros x. split; [by left|]. intros [H|(t & Ht & _)]; [done|set_solver].
  - cbn [fold_left].
    destruct (set_add_if_spec (is_core (subj t)) (subj t) acc Hacc) as [N1 M1].
    destruct (set_add_if_spec (is_core (pred t)) (pred t) _ N1) as [N2 M2].
    destruct (set_add_if_spec (is_core (obj t)) (obj t) _ N2) as [N3 M3].
    unfold is_core in *.
    destruct (IH _ N3) as [N4 M4]. split; [exact N4|]. intros x. rewrite M4, M3, M2, M1.
    split.
    + intros [[[Hc ->]|[[Hc ->]|[[Hc ->]|H]]]|(t' & Ht' & Hx & Hc)];
        try (right; exists t; split; [set_solver|]; split; [tauto|done]); [by left|].
      right. exists t'. split; [set_solver|done].
    + intros [H|(t' & Ht' & Hx & Hc)]; [tauto|].
      apply elem_of_cons in Ht' as [<-|Ht'].
      * destruct Hx as [ -> | [ -> | -> ] ]; tauto.
      * right. exists t'. done.
Qed.

Lemma defined_fold (gr : graph) (acc : list term) :
  NoDup acc ->
  let r := fold_left (fun acc t =>
                 if Py.startswith (MainTests.str (subj t)) MainTests.core_namespace
                    && bool_decide (pred t ∈ [RDF_type])
                 then MainTests.set_add (subj t) acc else acc) gr acc in
  NoDup r /\ forall x, x ∈ r <-> x ∈ acc \/
    exists t, t ∈ gr /\ x = subj t /\ pred t = RDF_type /\ is_core x = true.
Proof.
  revert acc. induction gr as [|t gr IH]; intros acc Hacc; cbn zeta.
  - split; [done|]. intros x. split; [by left|]. intros [H|(t & Ht & _)]; [done|set_solver].
  - cbn [fold_left].
    destruct (set_add_if_spec (is_core (subj t) && bool_decide (pred t ∈ [RDF_type])) (subj t) acc Hacc)
      as [N1 M1].
    unfold is_core in *.
    destruct (IH _ N1) as [N2 M2]. split; [exact N2|]. intros x. rewrite M2, M1.
    rewrite andb_true_iff, bool_decide_eq_true, list_elem_of_singleton.
    split.
    + intros [[[[Hc Hp] ->]|H]|(t' & Ht' & Hx & Hp & Hc)]; [|by left|].
      * right. exists t. split; [set_solver|done].
      * right. exists t'. split; [set_solver|done].
    + intros [H|(t' & Ht' & Hx & Hp & Hc)]; [tauto|].
      apply elem_of_cons in Ht' as [<-|Ht'].
      * subst x. tauto.
      * right. exists t'. done.
Qed.

(** [test_cross_references] never reports an issue: its [issues] list is
    always empty and [success] always true.  [core_references] counts the
    distinct terms in the core namespace that occur anywhere in the
    graph, [defined_core_terms] the distinct such subjects of an
    [rdf:type] triple, so the second never exceeds the first. *)
Theorem cross_references_always_succeed (gr : graph) :
  let r := MainTests.test_cross_references gr in
  MainTests.issues r = [] /\ MainTests.success r = true /\
  (exists refs, NoDup refs /\ MainTests.core_references r = length refs /\
     forall x, x ∈ refs <-> exists t, t ∈ gr /\ (x = subj t \/ x = pred t \/ x = obj t) /\
                                     is_core x = true) /\
  (exists defs, NoDup defs /\ MainTests.defined_core_terms r = length defs /\
     forall x, x ∈ defs <-> exists t, t ∈ gr /\ x = subj t /\ pred t = RDF_type /\
                                     is_core x = true) /\
  MainTests.defined_core_terms r <= MainTests.core_references r.
Proof.
  cbn zeta. unfold MainTests.test_cross_references. cbn [MainTests.issues MainTests.success
    MainTests.core_references MainTests.defined_core_terms].
  destruct (core_refs_fold gr [] (NoDup_nil_2)) as [N1 M1].
  destruct (defined_fold gr [] (NoDup_nil_2)) as [N2 M2].
  cbn zeta in *.
  split; [done|]. split; [done|]. split; [|split].
  - eexists. split; [exact N1|]. split; [reflexivity|]. intros x. rewrite M1. set_solver.
  - eexists. split; [exact N2|]. split; [reflexivity|]. intros x. rewrite M2. set_solver.
  - apply NoDup_incl_length; [by apply NoDup_ListNoDup|]. intros x Hx.
    apply list_elem_of_In, M2 in Hx as [Hx|(t & Ht & -> & _ & Hc)]; [set_solver|].
    apply list_elem_of_In, M1. right. exists t. split; [done|]. split; [by left|done].
Qed.

Lemma run_check_fold (parse : string -> string + nat) (l : list string) (b : bool) :
  fold_left (fun all_valid file_path =>
               if Checker.valid (Checker.validate_ttl_file parse file_path) then all_valid else false)
            l b
  = b && forallb (fun f => Checker.valid (Checker.validate_ttl_file parse f)) l.
Proof.
  revert b. induction l as [|f l IH]; intros b; cbn; [by destruct b|].
  rewrite IH. destruct (Checker.valid _), b; reflexivity.
Qed.

(** [run_check] reports success exactly when at least one Turtle file
    was found and every one of them parses; one failing file makes the
    whole check fail. *)
Theorem run_check_iff (parse : string -> string + nat) (ttl_files : list string) :
  Checker.run_check parse ttl_files = true <->
  ttl_files <> [] /\ Forall (fun f => exists n, parse f = inr n) ttl_files.
Proof.
  unfold Checker.run_check. destruct ttl_files as [|f l]; [split; [discriminate|tauto]|].
  rewrite run_check_fold. cbn [andb]. rewrite forallb_forall, Forall_forall.
  split.
  - intros H. split; [discriminate|]. intros x Hx.
    specialize (H x (proj1 (list_elem_of_In _ _) Hx)).
    unfold Checker.validate_ttl_file in H. destruct (parse x); [discriminate|by eexists].
  - intros [_ H] x Hx. destruct (H x (proj2 (list_elem_of_In _ _) Hx)) as [n E].
    unfold Checker.validate_ttl_file. by rewrite E.
Qed.

Lemma last_app_cons {A} (l : list A) (x : A) (r : list A) :
  last (l ++ x :: r) = last (x :: r).
Proof.
  induction l as [|y l IH]; [done|]. rewrite <- app_comm_cons, last_cons, IH.
  destruct (last (x :: r)) eqn:E; [done|]. exfalso. rewrite last_None in E. discriminate.
Qed.

(** The RPM index maps a checksum to the IRI of the last package of
    [primary.xml] with that checksum, and has no entry for a checksum
    no package has. *)
Theorem rpm_index_last_wins (pds : list Rpm.pkg_data) (k : option string) :
  Rpm._build_package_map pds !! k = Rpm.pkg_uri <$> last (filter (fun d => Rpm.pkgid d = k) pds).
Proof.
  unfold Rpm._build_package_map.
  induction pds as [|d pds IH] using rev_ind; [done|].
  rewrite fold_left_app, filter_app. cbn [fold_left].
  destruct (decide (Rpm.pkgid d = k)) as [<-|Hne].
  - rewrite lookup_insert_eq, filter_cons_True by done. cbn [filter].
    rewrite last_app_cons. reflexivity.
  - rewrite lookup_insert_ne by done. rewrite filter_cons_False by done. rewrite filter_nil.
    rewrite app_nil_r. exact IH.
Qed.

Lemma filelists_triples_spec (pkg_map : Rpm.rpm_map_t) (chunk : list Rpm.fl_data) t :
  t ∈ filelists_triples pkg_map chunk <->
  exists d u f, d ∈ chunk /\ pkg_map !! Some (Rpm.fl_pkgid d) = Some u /\ f ∈ Rpm.files d /\
                t = (u, URI (Rpm.RPM +:+ "fileName"), Lit f).
Proof.
  unfold filelists_triples. rewrite elem_of_concat_map. split.
  - intros (d & Hd & Ht). destruct (pkg_map !! _) as [u|] eqn:E; [|set_solver].
    apply list_elem_of_fmap in Ht as (f & -> & Hf). exists d, u, f. done.
  - intros (d & u & f & Hd & E & Hf & ->). exists d. split; [done|]. rewrite E.
    apply list_elem_of_fmap. by exists f.
Qed.




Lemma skip_prefix_lines_spec (f : list string) :
  exists pre, f = pre ++ skip_prefix_lines f /\ Forall (fun l => is_content l = false) pre /\
    (skip_prefix_lines f = [] \/ exists l r, skip_prefix_lines f = l :: r /\ is_content l = true).
Proof.
  induction f as [|l f IH]; cbn.
  - exists []. split; [done|]. split; [constructor|by left].
  - fold (is_content l). destruct (is_content l) eqn:E.
    + exists []. split; [done|]. split; [constructor|]. right. by exists l, f.
    + destruct IH as (pre & Hf & Hpre & Hs). exists (l :: pre).
      split; [cbn; by rewrite <- Hf|]. split; [by constructor|exact Hs].
Qed.

Lemma filter_skip_prefix_lines (f : list string) :
  filter (fun l => is_content l = true) (skip_prefix_lines f) = filter (fun l => is_content l = true) f.
Proof.
  destruct (skip_prefix_lines_spec f) as (pre & Hf & Hpre & _).
  rewrite Hf at 2. rewrite filter_app.
  replace (filter (fun l => is_content l = true) pre) with (@nil string); [done|].
  clear Hf. induction Hpre as [|l pre Hl _ IH]; [done|]. rewrite filter_cons_False; [exact IH|].
  rewrite Hl. discriminate.
Qed.

(** [merge_turtle_files] loses no content: the lines that are neither
    [@prefix] lines nor blank come out in file order.  The output is the
    first file verbatim, then each later file from its first content
    line on: what it drops of a later file is only [@prefix] and blank
    lines before that line, and its later [@prefix] lines are kept. *)
Theorem merge_turtle_files_keeps_content (temp_files : list (list string)) :
  filter (fun l => is_content l = true) (merge_turtle_files temp_files)
    = concat (map (filter (fun l => is_content l = true)) temp_files) /\
  forall f0 fs, temp_files = f0 :: fs ->
    exists sufs, merge_turtle_files temp_files = f0 ++ concat sufs /\
      Forall2 (fun f suf => exists pre, f = pre ++ suf /\
                 Forall (fun l => is_content l = false) pre /\
                 (suf = [] \/ exists l r, suf = l :: r /\ is_content l = true)) fs sufs.
Proof.
  assert (Hfrom : forall i fs, 0 < i -> merge_turtle_files_from i fs = concat (map skip_prefix_lines fs)).
  { intros i fs. revert i. induction fs as [|f fs IH]; intros i Hi; [done|].
    cbn. rewrite (IH (S i)) by lia. destruct i; [lia|reflexivity]. }
  split.
  - unfold merge_turtle_files. destruct temp_files as [|f0 fs]; [done|].
    cbn [merge_turtle_files_from Nat.ltb Nat.leb]. rewrite Hfrom by lia.
    cbn [map concat]. rewrite !filter_app. f_equal.
    induction fs as [|f fs IH]; [done|]. cbn. rewrite !filter_app, IH, filter_skip_prefix_lines. done.
  - intros f0 fs ->. exists (map skip_prefix_lines fs).
    unfold merge_turtle_files. cbn [merge_turtle_files_from Nat.ltb Nat.leb]. rewrite Hfrom by lia.
    split; [done|]. induction fs as [|f fs IH]; cbn; constructor; [|exact IH].
    apply skip_prefix_lines_spec.
Qed.


Lemma grows_by_groups_refl R s : grows_by_groups R s s.
Proof. split; [done|by left]. Qed.

Lemma grows_by_groups_trans R s1 s2 s3 :
  grows_by_groups R s1 s2 -> grows_by_groups R s2 s3 -> grows_by_groups R s1 s3.
Proof.
  intros [H12 H12'] [H23 H23']. split; [auto|]. intros t Ht.
  destruct (H23' t Ht) as [H2|(L & HR & HL & Hsub)]; [|right; by exists L].
  destruct (H12' t H2) as [H1|(L & HR & HL & Hsub)]; [by left|right].
  exists L. split; [done|]. split; [done|]. auto.
Qed.

Lemma grows_by_groups_mono (R R' : list triple -> Prop) s s' :
  (forall L, R L -> R' L) -> grows_by_groups R s s' -> grows_by_groups R' s s'.
Proof.
  intros HR [H1 H2]. split; [done|]. intros t Ht.
  destruct (H2 t Ht) as [H|(L & HL & Ht' & Hs)]; [by left|right]. exists L. auto.
Qed.

Lemma changelog_body_spec (u : term) (cl : Rpm.changelog) (s : st) :
  exists s', (cl_bnode ← new_bnode;
              add (u, URI (Rpm.RPM +:+ "hasChangelog"), cl_bnode) ;;
              add (cl_bnode, RDF_type, URI (Rpm.RPM +:+ "Changelog")) ;;
              (if Rpm.truthy (Rpm.cl_text cl)
               then add (cl_bnode, URI (Rpm.RPM +:+ "changelogText"), Lit (Rpm.fmt (Rpm.cl_text cl)))
               else mret tt) ;;
              (if Rpm.truthy (Rpm.cl_author cl)
               then add (cl_bnode, URI (Rpm.RPM +:+ "changelogAuthor"), Lit (Rpm.fmt (Rpm.cl_author cl)))
               else mret tt) ;;
              (if Rpm.truthy (Rpm.cl_date cl)
               then add (cl_bnode, URI (Rpm.RPM +:+ "changelogTime"),
                         LitT (Rpm.fmt (Rpm.cl_date cl)) RDFS_Literal)
               else mret tt)) s = Ok tt s' /\
    forall t, t ∈ g s' <-> t ∈ g s \/ t ∈ changelog_triples u (next_bnode s) cl.
Proof.
  unfold changelog_triples.
  destruct (Rpm.truthy (Rpm.cl_text cl)), (Rpm.truthy (Rpm.cl_author cl)),
    (Rpm.truthy (Rpm.cl_date cl));
    eexists; (split; [reflexivity|]); intros t; cbn [g app];
    rewrite ?elem_of_graph_add, ?elem_of_cons, ?elem_of_nil; tauto.
Qed.

Lemma changelogs_loop_spec (u : term) (cls : list Rpm.changelog) (s : st) :
  exists s', mfor cls (fun cl =>
              cl_bnode ← new_bnode;
              add (u, URI (Rpm.RPM +:+ "hasChangelog"), cl_bnode) ;;
              add (cl_bnode, RDF_type, URI (Rpm.RPM +:+ "Changelog")) ;;
              (if Rpm.truthy (Rpm.cl_text cl)
               then add (cl_bnode, URI (Rpm.RPM +:+ "changelogText"), Lit (Rpm.fmt (Rpm.cl_text cl)))
               else mret tt) ;;
              (if Rpm.truthy (Rpm.cl_author cl)
               then add (cl_bnode, URI (Rpm.RPM +:+ "changelogAuthor"), Lit (Rpm.fmt (Rpm.cl_author cl)))
               else mret tt) ;;
              (if Rpm.truthy (Rpm.cl_date cl)
               then add (cl_bnode, URI (Rpm.RPM +:+ "changelogTime"),
                         LitT (Rpm.fmt (Rpm.cl_date cl)) RDFS_Literal)
               else mret tt)) s = Ok tt s' /\
    grows_by_groups (fun L => exists cl n, cl ∈ cls /\ L = changelog_triples u n cl) s s' /\
    forall cl, cl ∈ cls -> exists n, forall t, t ∈ changelog_triples u n cl -> t ∈ g s'.
Proof.
  revert s. induction cls as [|cl cls IH]; intros s.
  - exists s. split; [done|]. split; [apply grows_by_groups_refl|set_solver].
  - destruct (changelog_body_spec u cl s) as (s1 & E1 & H1).
    destruct (IH s1) as (s' & E' & Hg' & Hc').
    exists s'. cbn [mfor]. split; [rewrite (bind_ok _ _ _ _ _ E1); exact E'|].
    assert (Hg1 : grows_by_groups (fun L => exists cl' n, cl' ∈ cl :: cls /\
                                     L = changelog_triples u n cl') s s1).
    { split; [intros t Ht; apply H1; by left|]. intros t Ht.
      apply H1 in Ht as [Ht|Ht]; [by left|right].
      exists (changelog_triples u (next_bnode s) cl). split; [exists cl, (next_bnode s); set_solver|].
      split; [done|]. intros t' Ht'. apply H1. by right. }
    split.
    + eapply grows_by_groups_trans; [exact Hg1|].
      eapply grows_by_groups_mono; [|exact Hg'].
      intros L (cl' & n & Hcl & ->). exists cl', n. set_solver.
    + intros cl' [->|Hcl]%elem_of_cons; [|by apply Hc'].
      exists (next_bnode s). intros t Ht. apply (proj1 Hg'), H1. by right.
Qed.

Lemma mfor_skip_filter {A} (P : A -> Prop) `{forall x, Decision (P x)}
    (l : list A) (body : A -> PyM unit) (s : st) :
  (forall x s0, ~ P x -> body x s0 = Ok tt s0) ->
  mfor l body s = mfor (filter P l) body s.
Proof.
  intros Hskip. revert s. induction l as [|x l IH]; intros s; [done|].
  cbn [mfor]. destruct (decide (P x)) as [Hx|Hx].
  - rewrite filter_cons_True by done. cbn [mfor]. unfold mbind, PyM_bind.
    destruct (body x s); [apply IH|done].
  - rewrite filter_cons_False by done. unfold mbind, PyM_bind. rewrite Hskip by done. apply IH.
Qed.

(** The changelog worker of the RPM collector never raises; its graph is
    made of whole changelog nodes: each triple belongs to the triples
    [changelog_triples u n cl] of a blank node [BNode n] written for a
    changelog entry [cl] of a chunk entry whose checksum the index maps
    to [u], all of which the graph holds (the [rpm:hasChangelog] link
    from [u] among them), and every changelog entry of every indexed
    chunk entry has such a node.  Entries whose checksum is not indexed
    contribute nothing: dropping them from the chunk gives the same
    result.  The index values are valid IRIs, as those of
    [_build_package_map] are ([rpm_index_n3]). *)
Theorem other_chunk_shape (chunk : list Rpm.ot_data) (i : nat) (pkg_map : Rpm.rpm_map_t) :
  map_Forall (fun _ u => n3_ok u = true) pkg_map ->
  Rpm._process_other_chunk chunk i pkg_map
    = Rpm._process_other_chunk
        (filter (fun d => is_Some (pkg_map !! Some (Rpm.ot_pkgid d))) chunk) i pkg_map /\
  exists pg, Rpm._process_other_chunk chunk i pkg_map = inr pg /\
    (forall t, t ∈ pg -> exists d u cl n, d ∈ chunk /\
        pkg_map !! Some (Rpm.ot_pkgid d) = Some u /\ cl ∈ Rpm.changelogs d /\
        t ∈ changelog_triples u n cl /\
        forall t', t' ∈ changelog_triples u n cl -> t' ∈ pg) /\
    (forall d u cl, d ∈ chunk -> pkg_map !! Some (Rpm.ot_pkgid d) = Some u ->
        cl ∈ Rpm.changelogs d ->
        exists n, forall t', t' ∈ changelog_triples u n cl -> t' ∈ pg).
Proof.
  intros Hm. split.
  { unfold Rpm._process_other_chunk, run_worker. rewrite (mfor_skip_filter (fun d => is_Some (pkg_map !! Some (Rpm.ot_pkgid d))) chunk).
    { reflexivity. }
    intros d s0 Hd. destruct (pkg_map !! _) eqn:E; [|done]. exfalso. apply Hd. by exists t. }
  destruct (other_chunk_ok chunk i pkg_map Hm) as (pg & E). exists pg. split; [exact E|].
  set (R := fun L => exists d u cl n, d ∈ chunk /\ pkg_map !! Some (Rpm.ot_pkgid d) = Some u /\
                       cl ∈ Rpm.changelogs d /\ L = changelog_triples u n cl).
  assert (Hloop : forall (c : list Rpm.ot_data) s, (forall d, d ∈ c -> d ∈ chunk) ->
    exists s', mfor c (fun d =>
      match pkg_map !! Some (Rpm.ot_pkgid d) with
      | None => mret tt
      | Some uri =>
          mfor (Rpm.changelogs d) (fun cl =>
            cl_bnode ← new_bnode;
            add (uri, URI (Rpm.RPM +:+ "hasChangelog"), cl_bnode) ;;
            add (cl_bnode, RDF_type, URI (Rpm.RPM +:+ "Changelog")) ;;
            (if Rpm.truthy (Rpm.cl_text cl)
             then add (cl_bnode, URI (Rpm.RPM +:+ "changelogText"), Lit (Rpm.fmt (Rpm.cl_text cl)))
             else mret tt) ;;
            (if Rpm.truthy (Rpm.cl_author cl)
             then add (cl_bnode, URI (Rpm.RPM +:+ "changelogAuthor"), Lit (Rpm.fmt (Rpm.cl_author cl)))
             else mret tt) ;;
            (if Rpm.truthy (Rpm.cl_date cl)
             then add (cl_bnode, URI (Rpm.RPM +:+ "changelogTime"),
                       LitT (Rpm.fmt (Rpm.cl_date cl)) RDFS_Literal)
             else mret tt))
      end) s = Ok tt s' /\ grows_by_groups R s s' /\
      forall d u cl, d ∈ c -> pkg_map !! Some (Rpm.ot_pkgid d) = Some u ->
        cl ∈ Rpm.changelogs d -> exists n, forall t', t' ∈ changelog_triples u n cl -> t' ∈ g s').
  { induction c as [|d c IH]; intros s Hc.
    { exists s. split; [done|]. split; [apply grows_by_groups_refl|set_solver]. }
    assert (Hd : d ∈ chunk) by (apply Hc; left).
    destruct (IH s) as (s' & E' & Hg' & Hc'); [intros x Hx; apply Hc; by right|].
    cbn [mfor]. destruct (pkg_map !! Some (Rpm.ot_pkgid d)) as [u|] eqn:Eu.
    - clear s' E' Hg' Hc'.
      destruct (changelogs_loop_spec u (Rpm.changelogs d) s) as (s1 & E1 & Hg1 & Hc1).
      destruct (IH s1) as (s' & E' & Hg' & Hc'); [intros x Hx; apply Hc; by right|].
      exists s'. split; [rewrite (bind_ok _ _ _ _ _ E1); exact E'|].
      split.
      + eapply grows_by_groups_trans; [|exact Hg'].
        eapply grows_by_groups_mono; [|exact Hg1].
        intros L (cl & n & Hcl & ->). exists d, u, cl, n. done.
      + intros d' u' cl [->|Hd']%elem_of_cons Hu Hcl; [|exact (Hc' d' u' cl Hd' Hu Hcl)].
        rewrite Eu in Hu. injection Hu as <-.
        destruct (Hc1 cl Hcl) as (n & Hn). exists n. intros t' Ht'. apply (proj1 Hg'), Hn, Ht'.
    - exists s'. split; [exact E'|]. split; [exact Hg'|].
      intros d' u' cl [->|Hd']%elem_of_cons Hu Hcl; [congruence|exact (Hc' d' u' cl Hd' Hu Hcl)]. }
  destruct (Hloop chunk empty_st (fun d Hd => Hd)) as (s' & E' & [_ Hg'] & Hc').
  unfold Rpm._process_other_chunk, run_worker in E. rewrite E' in E.
  destruct (serialize_ok (g s')); [|discriminate]. injection E as <-.
  split.
  - intros t Ht. destruct (Hg' t Ht) as [H0|(L & (d & u & cl & n & Hd & Hu & Hcl & ->) & HtL & Hsub)].
    { cbn in H0. by apply elem_of_nil in H0. }
    exists d, u, cl, n. done.
  - exact Hc'.
Qed.

Lemma other_chunk_shape_witness :
  map_Forall (fun _ u => n3_ok u = true) ({[ Some "abc" := URI "http://r/p" ]} : Rpm.rpm_map_t) /\
  exists pg n, Rpm._process_other_chunk
                 [Rpm.mkOtData "abc" [Rpm.mkChangelog (Some "fix") None None];
                  Rpm.mkOtData "zzz" [Rpm.mkChangelog (Some "other") None None]] 0
                 {[ Some "abc" := URI "http://r/p" ]} = inr pg /\
    (URI "http://r/p", URI (Rpm.RPM +:+ "hasChangelog"), BNode n) ∈ pg /\
    (BNode n, URI (Rpm.RPM +:+ "changelogText"), Lit "fix") ∈ pg.
Proof.
  assert (H : map_Forall (fun _ u => n3_ok u = true)
                ({[ Some "abc" := URI "http://r/p" ]} : Rpm.rpm_map_t)).
  { apply map_Forall_singleton. reflexivity. }
  split; [exact H|].
  destruct (other_chunk_shape
              [Rpm.mkOtData "abc" [Rpm.mkChangelog (Some "fix") None None];
               Rpm.mkOtData "zzz" [Rpm.mkChangelog (Some "other") None None]] 0
              {[ Some "abc" := URI "http://r/p" ]} H) as (_ & pg & E & _ & Hc).
  destruct (Hc (Rpm.mkOtData "abc" [Rpm.mkChangelog (Some "fix") None None])
              (URI "http://r/p") (Rpm.mkChangelog (Some "fix") None None))
    as (n & Hn).
  - left.
  - reflexivity.
  - left.
  - exists pg, n. split; [exact E|]. split; apply Hn; cbn; set_solver.
Defined.
